(** * hidro_system: relay scheduler and GPIO controller

    A shallow embedding of the [Scheduler] class (scheduler.js, shipped
    inside src/app.js) and of the [GPIOController] class
    (src/gpio_controller.js), with the parts of the Node runtime they
    drive: node-cron tasks, [setTimeout]/[setInterval] timers, the rpio
    pin writes and the rows sent to the SQLite store.

    Conventions.
    - JavaScript numbers that carry sensor values and thresholds are IEEE
      binary64 values ([float]); identifiers, durations and clock values
      are integers ([Z]). The methods that take a relay id are modelled
      on integer ids; what their range test does on a value that is no
      number is [relay_guard].
    - Every object of the program is a record; a method is a function
      from the state of the world to the new state (and a completion
      value where the method returns or throws).
    - [console.log] and [console.warn] output is not modelled;
      [console.error] is.
    - A promise returned by the store ([saveSystemLog], [saveReleState],
      [saveSensorReading]) is never awaited by the callers modelled here:
      the model records the row handed to the store. *)

From Stdlib Require Import ZArith Bool String Lia.
From Stdlib Require Import Floats.PrimFloat.
From stdpp Require Import base list.

Set Warnings "-inexact-float".
Local Open Scope Z_scope.

(** ** Values shared by both classes *)

(** A time of day as stored in the [start_time]/[end_time] columns
    ("HH:mm"), kept as its two numeric fields: what
    [start_time.split(':').map(Number)] yields. *)
Record HHmm := { hh : Z; mm : Z }.

Inductive ConditionType := CtTemperature | CtHumidity | CtOther (name : string).

Inductive Operator := OpGt | OpLt | OpGe | OpLe | OpEq | OpOther (text : string).

Inductive Action := ActActivate | ActDeactivate | ActOther (text : string).

(** Row of table [schedules]. *)
Record Schedule := {
  s_id : Z;
  s_rele_id : Z;
  s_day_of_week : Z;
  s_start_time : HHmm;
  s_end_time : HHmm
}.

(** Row of table [conditions]. *)
Record Condition := {
  c_id : Z;
  c_rele_id : Z;
  c_condition_type : ConditionType;
  c_threshold_value : float;
  c_operator : Operator;
  c_action : Action;
  c_duration : Z
}.

(** The [reason] argument of [controlRele]; each constructor stands for
    one template string of the source. *)
Inductive Reason :=
| ReasonManual                                  (* 'Control manual' *)
| ReasonSchedule (st et : HHmm)                 (* `Horario programado - ${st} a ${et}` *)
| ReasonScheduleEnd (st et : HHmm)              (* `Fin de horario programado - ...` *)
| ReasonCondition (ty : ConditionType) (op : Operator) (thr : float)
                                                (* `Condición: ${ty} ${op} ${thr}` *)
| ReasonConditionEnd (ty : ConditionType) (op : Operator) (thr : float)
                                                (* `Fin de condición: ...` *)
| ReasonText (text : string).

Inductive CronFieldName := FMinute | FHour | FDayOfMonth | FMonth | FWeekDay.

(** The errors thrown in the modelled code, by their origin. *)
Inductive ErrorMsg :=
| ErrInvalidReleId                 (* 'ID de relé inválido. Debe ser entre 1 y 4' *)
| ErrRpioWrite (pin : option Z)    (* whatever rpio.write throws *)
| ErrDht11NotInitialized           (* 'Sensor DHT11 no inicializado' *)
| ErrDht11InvalidReading           (* 'Lectura inválida del sensor DHT11' *)
| ErrCronInvalid (f : CronFieldName) (* `${v} is a invalid expression for ${f}` *)
| ErrDatabase.                     (* a rejected store query *)

Inductive Level := LvlInfo | LvlWarn | LvlError.

Inductive Source := SrcGPIOController | SrcScheduler.

(** The [message] argument of [saveSystemLog], one constructor per
    template string. *)
Inductive Message :=
| MsgRele (releId : Z) (state : bool) (reason : Reason)
      (* `Relé ${releId} ${activado|desactivado} - Razón: ${reason}` *)
| MsgReleError (releId : Z) (e : ErrorMsg)
      (* `Error controlando relé ${releId}: ${error.message}` *)
| MsgDht11Error (e : ErrorMsg)        (* `Error leyendo DHT11: ...` *)
| MsgTemperatureOutOfRange (t : float)
| MsgHumidityOutOfRange (h : float)
| MsgSchedulerInit                    (* 'Programador de horarios inicializado' *)
| MsgSchedulerInitError (e : ErrorMsg)
| MsgScheduleExecuted (id rele : Z)   (* `Horario ${id} ejecutado para relé ${rele}` *)
| MsgScheduleError (id : Z) (e : ErrorMsg)
| MsgConditionExecuted (id rele : Z)
| MsgConditionError (id : Z) (e : ErrorMsg)
| MsgBackupCreated
| MsgBackupError
| MsgLogCleanup
| MsgSchedulerStopped.                (* 'Programador detenido' *)

Record LogEntry := { le_level : Level; le_message : Message; le_source : Source }.

(** Call sites of [console.error]. *)
Inductive ConsoleError :=
| CeControlRele (releId : Z) (e : ErrorMsg)
| CeReadDHT11 (e : ErrorMsg)          (* GPIOController.readDHT11 *)
| CeSensorRead (e : ErrorMsg)         (* DHT11Sensor.read *)
| CeInit (e : ErrorMsg)
| CeLoadSchedules (e : ErrorMsg)
| CeLoadConditions (e : ErrorMsg)
| CeAddSchedule (id : Z) (e : ErrorMsg)
| CeExecuteSchedule (id : Z) (e : ErrorMsg)
| CeCheckConditions (e : ErrorMsg)
| CeExecuteCondition (id : Z) (e : ErrorMsg)
| CeCreateBackup.

(** ** config.js *)

Record Range := { r_min : float; r_max : float }.

Record Config := {
  relePins : list Z;
  releActiveLow : bool;
  conditionCheckInterval : Z;
  thr_temperature : Range;
  thr_humidity : Range;
  backup_enabled : bool;
  backup_frequency : Z
}.

(** The values of src/config.js. *)
Definition config_js : Config := {|
  relePins := [2; 3; 4; 18];
  releActiveLow := true;
  conditionCheckInterval := 60000;
  thr_temperature := {| r_min := 18%float; r_max := 28%float |};
  thr_humidity := {| r_min := 40%float; r_max := 80%float |};
  backup_enabled := true;
  backup_frequency := 24
|}.

(** ** The world outside the two objects *)

Inductive PinLevel := LOW | HIGH.

(** One call of [rpio.write]; [rw_threw] tells whether it threw. *)
Record RpioWrite := { rw_pin : option Z; rw_level : PinLevel; rw_threw : bool }.

(** What the model cannot decide: which pin writes throw, and whether the
    store can write a backup. *)
Record Env := {
  rpio_write_throws : option Z -> bool;
  db_backup_fails : bool
}.

Record ReleStateRow := { rs_rele_id : Z; rs_state : bool; rs_reason : Reason }.

(** The rows handed to the store, oldest first. *)
Record Database := {
  system_logs : list LogEntry;
  rele_states : list ReleStateRow;
  sensor_readings : list (float * float)
}.

(** *** node-cron *)

Inductive CronField := Star | Num (n : Z).

(** A five-field pattern: minute hour day-of-month month week-day. *)
Record CronExpr := {
  cr_minute : CronField;
  cr_hour : CronField;
  cr_dom : CronField;
  cr_month : CronField;
  cr_dow : CronField
}.

(** The callbacks handed to [cron.schedule], as data. *)
Inductive CronCallback :=
| CbExecuteSchedule (s : Schedule)
| CbCreateBackup
| CbCleanupOldLogs.

Record CronTask := {
  ct_expr : CronExpr;
  ct_callback : CronCallback;
  ct_running : bool
}.

(** *** Node timers *)

(** A pending [setTimeout]: every one armed by the scheduler switches a
    relay off, [controlRele(to_rele, false, to_reason)], at [to_due]
    (milliseconds on the clock [now]). *)
Record Timeout := { to_due : Z; to_rele : Z; to_reason : Reason }.

Record Node := {
  now : Z;
  cronTasks : list CronTask;       (* every task created, by handle *)
  timeouts : list Timeout;         (* armed and not yet fired *)
  intervals : list Z;              (* periods of the live checkConditions loops *)
  console_error : list ConsoleError;
  uncaught : list ErrorMsg         (* exceptions that escaped a timer callback *)
}.

(** Completion of a method that may throw. *)
Inductive Completion (A : Type) :=
| Returned (a : A)
| Threw (e : ErrorMsg).
Arguments Returned {A} a.
Arguments Threw {A} e.

(** ** dht11_sensor.js (second part of src/gpio_controller.js) *)

Module DHT11.

(** The fields of [DHT11Sensor] that [read] uses. *)
Record Sensor := {
  lastReading : option (float * float);
  lastReadTime : Z;
  simulationMode : bool
}.

Definition minReadInterval : Z := 2000.

(** [isValidReading(temperature, humidity)]. *)
Definition isValidReading (temperature humidity : float) : bool :=
  if PrimFloat.ltb temperature (-40)%float || PrimFloat.ltb 80%float temperature
  then false
  else if PrimFloat.ltb humidity 0%float || PrimFloat.ltb 100%float humidity
  then false
  else if is_nan temperature || is_nan humidity
          || negb (is_finite temperature) || negb (is_finite humidity)
  then false
  else true.

(** The answer of [read] when the attempt failed: the [catch] block. *)
Definition fallback (s : Sensor) : float * float :=
  match lastReading s with
  | Some r => r
  | None => (25.0%float, 60.0%float)
  end.

(** [read()] at clock value [date_now]. [raw] is what the simulation or
    [readFromGPIO] produced for this call (both draw on [Math.random] and
    the clock), or the error [readFromGPIO] threw. *)
Definition read (date_now : Z) (raw : Completion (float * float)) (s : Sensor)
  : (float * float) * Sensor :=
  match (if date_now - lastReadTime s <? minReadInterval then lastReading s else None) with
  | Some r => (r, s)
  | None =>
      match raw with
      | Returned (temperature, humidity) =>
          if isValidReading temperature humidity
          then ((temperature, humidity),
                {| lastReading := Some (temperature, humidity);
                   lastReadTime := date_now;
                   simulationMode := simulationMode s |})
          else (fallback s, s)
      | Threw _ => (fallback s, s)
      end
  end.

(** The error that the [catch] block of [read()] writes with
    [console.error], when the call gets there: nothing for a cached
    answer or a valid reading. *)
Definition read_error (date_now : Z) (raw : Completion (float * float)) (s : Sensor)
  : option ErrorMsg :=
  match (if date_now - lastReadTime s <? minReadInterval then lastReading s else None) with
  | Some _ => None
  | None =>
      match raw with
      | Returned (temperature, humidity) =>
          if isValidReading temperature humidity then None
          else Some ErrDht11InvalidReading
      | Threw e => Some e
      end
  end.

End DHT11.

(** ** The two objects *)

(** [GPIOController]: the relay array and the sensor object ([None] while
    [this.dht11] is null). The pin set-up of [init] is outside the
    modelled part. *)
Record GPIOController := {
  releStates : list bool;
  dht11 : option DHT11.Sensor
}.

Inductive TaskName := TnBackup | TnLogCleanup.

Record ActiveSchedule := {
  as_schedule : Schedule;
  as_task : nat;                   (* handle of the cron task *)
  as_cronExpression : CronExpr
}.

(** [Scheduler]: its three maps (JavaScript [Map]s keep insertion order, so
    they are association lists; the keys `schedule_${id}` and
    `condition_${id}` are kept as the id) and the running flag. *)
Record Scheduler := {
  activeSchedules : list (Z * ActiveSchedule);
  activeConditions : list (Z * Condition);
  scheduledTasks : list (TaskName * nat);
  isRunning : bool
}.

Record World := {
  env : Env;
  hw : list RpioWrite;             (* calls of rpio.write, oldest first *)
  db : Database;
  gpio : GPIOController;
  node : Node;
  sched : Scheduler
}.

(** *** Field updates *)

Definition with_hw (f : list RpioWrite -> list RpioWrite) (w : World) : World :=
  {| env := env w; hw := f (hw w); db := db w; gpio := gpio w;
     node := node w; sched := sched w |}.

Definition with_db (f : Database -> Database) (w : World) : World :=
  {| env := env w; hw := hw w; db := f (db w); gpio := gpio w;
     node := node w; sched := sched w |}.

Definition with_gpio (f : GPIOController -> GPIOController) (w : World) : World :=
  {| env := env w; hw := hw w; db := db w; gpio := f (gpio w);
     node := node w; sched := sched w |}.

Definition with_node (f : Node -> Node) (w : World) : World :=
  {| env := env w; hw := hw w; db := db w; gpio := gpio w;
     node := f (node w); sched := sched w |}.

Definition with_sched (f : Scheduler -> Scheduler) (w : World) : World :=
  {| env := env w; hw := hw w; db := db w; gpio := gpio w;
     node := node w; sched := f (sched w) |}.

(** [database.saveSystemLog(level, message, source)]. *)
Definition saveSystemLog (l : Level) (m : Message) (s : Source) : World -> World :=
  with_db (fun d =>
    {| system_logs := system_logs d ++ [ {| le_level := l; le_message := m; le_source := s |} ];
       rele_states := rele_states d;
       sensor_readings := sensor_readings d |}).

(** [database.saveReleState(releId, state, reason)]. *)
Definition saveReleState (releId : Z) (state : bool) (reason : Reason) : World -> World :=
  with_db (fun d =>
    {| system_logs := system_logs d;
       rele_states := rele_states d ++
         [ {| rs_rele_id := releId; rs_state := state; rs_reason := reason |} ];
       sensor_readings := sensor_readings d |}).

(** [database.saveSensorReading(temperature, humidity)]. *)
Definition saveSensorReading (t h : float) : World -> World :=
  with_db (fun d =>
    {| system_logs := system_logs d;
       rele_states := rele_states d;
       sensor_readings := sensor_readings d ++ [ (t, h) ] |}).

Definition console_err (e : ConsoleError) : World -> World :=
  with_node (fun n =>
    {| now := now n; cronTasks := cronTasks n; timeouts := timeouts n;
       intervals := intervals n; console_error := console_error n ++ [e];
       uncaught := uncaught n |}).

(** ** JavaScript [Map] on an association list *)

Section JsMap.
Context {K V : Type} `{EqDecision K}.

(** [m.set(k, v)]: an existing key keeps its place, a new key goes last. *)
Fixpoint map_set (k : K) (v : V) (m : list (K * V)) : list (K * V) :=
  match m with
  | [] => [(k, v)]
  | (k', v') :: m' =>
      if decide (k' = k) then (k, v) :: m' else (k', v') :: map_set k v m'
  end.

(** [m.clear()]. *)
Definition map_clear (m : list (K * V)) : list (K * V) := [].

(** [m.size]. *)
Definition map_size (m : list (K * V)) : Z := Z.of_nat (length m).
End JsMap.

#[global] Instance TaskName_eq_dec : EqDecision TaskName.
Proof. solve_decision. Defined.

(** What [this.dht11.read()] hands to [readDHT11]: [None] is a falsy
    answer, a [None] field a [null] one. *)
Record Readout := { rd_temperature : option float; rd_humidity : option float }.

(** ** Node timers *)

Definition TIMEOUT_MAX : Z := 2147483647.

(** Node replaces a delay that is NaN ([None]), below 1 or above
    [TIMEOUT_MAX] by 1 millisecond. *)
Definition timer_delay (ms : option Z) : Z :=
  match ms with
  | Some n => if (1 <=? n) && (n <=? TIMEOUT_MAX) then n else 1
  | None => 1
  end.

(** [setTimeout(() => controlRele(rele, false, reason), ms)]. *)
Definition setTimeout (rele : Z) (reason : Reason) (ms : option Z) : World -> World :=
  with_node (fun n =>
    {| now := now n; cronTasks := cronTasks n;
       timeouts := timeouts n ++
         [ {| to_due := now n + timer_delay ms; to_rele := rele; to_reason := reason |} ];
       intervals := intervals n; console_error := console_error n;
       uncaught := uncaught n |}).

(** [setInterval(() => this.checkConditions(), ms)]. *)
Definition setInterval (ms : Z) : World -> World :=
  with_node (fun n =>
    {| now := now n; cronTasks := cronTasks n; timeouts := timeouts n;
       intervals := intervals n ++ [ timer_delay (Some ms) ];
       console_error := console_error n; uncaught := uncaught n |}).

(** ** node-cron *)

Definition field_ok (lo hi : Z) (f : CronField) : bool :=
  match f with
  | Star => true
  | Num n => (lo <=? n) && (n <=? hi)
  end.

(** Pattern validation of node-cron, in its order: minute 0-59, hour 0-23,
    day of month 1-31, month 1-12, week day 0-7. The answer is the error
    [cron.schedule] throws. The week-day test is the library's on the
    numbers 0..7; the library rewrites the text of the week-day field
    before it tests it, and accepts the numbers 70 to 77 that way, so
    properties that rest on a rejected week day are stated for week days
    0..7. *)
Definition cron_validate (e : CronExpr) : option ErrorMsg :=
  if negb (field_ok 0 59 (cr_minute e)) then Some (ErrCronInvalid FMinute)
  else if negb (field_ok 0 23 (cr_hour e)) then Some (ErrCronInvalid FHour)
  else if negb (field_ok 1 31 (cr_dom e)) then Some (ErrCronInvalid FDayOfMonth)
  else if negb (field_ok 1 12 (cr_month e)) then Some (ErrCronInvalid FMonth)
  else if negb (field_ok 0 7 (cr_dow e)) then Some (ErrCronInvalid FWeekDay)
  else None.

(** [cron.schedule(expr, callback, { scheduled: false })]: throws on an
    invalid pattern, else creates a task that is not started and returns
    its handle. *)
Definition cron_schedule (e : CronExpr) (cb : CronCallback) (w : World)
  : Completion nat * World :=
  match cron_validate e with
  | Some err => (Threw err, w)
  | None =>
      (Returned (length (cronTasks (node w))),
       with_node (fun n =>
         {| now := now n;
            cronTasks := cronTasks n ++
              [ {| ct_expr := e; ct_callback := cb; ct_running := false |} ];
            timeouts := timeouts n; intervals := intervals n;
            console_error := console_error n; uncaught := uncaught n |}) w)
  end.

Definition set_running (b : bool) (t : CronTask) : CronTask :=
  {| ct_expr := ct_expr t; ct_callback := ct_callback t; ct_running := b |}.

Definition task_update (b : bool) (task : nat) : World -> World :=
  with_node (fun n =>
    {| now := now n; cronTasks := alter (set_running b) task (cronTasks n);
       timeouts := timeouts n; intervals := intervals n;
       console_error := console_error n; uncaught := uncaught n |}).

(** [task.start()] and [task.stop()]. *)
Definition task_start : nat -> World -> World := task_update true.
Definition task_stop : nat -> World -> World := task_update false.

(** A wall-clock minute in the scheduler's time zone. *)
Record Moment := { m_minute : Z; m_hour : Z; m_dom : Z; m_month : Z; m_dow : Z }.

Definition field_matches (f : CronField) (v : Z) : bool :=
  match f with
  | Star => true
  | Num n => n =? v
  end.

(** Week day 7 is Sunday, like 0. *)
Definition dow_matches (f : CronField) (v : Z) : bool :=
  match f with
  | Star => true
  | Num n => n mod 7 =? v
  end.

Definition cron_matches (e : CronExpr) (m : Moment) : bool :=
  field_matches (cr_minute e) (m_minute m) && field_matches (cr_hour e) (m_hour m)
  && field_matches (cr_dom e) (m_dom m) && field_matches (cr_month e) (m_month m)
  && dow_matches (cr_dow e) (m_dow m).

(** ** moment *)

(** [moment(t, 'HH:mm')] as seconds after today's local midnight; [None] is
    an invalid moment. "24:00" is accepted as the next midnight. No
    daylight-saving shift is assumed between two times of one day (the
    configured zone, America/Santo_Domingo, has none). The fields are
    those of a time of day written with digits only; the forgiving parser
    of moment skips a sign, which this function reads as an invalid
    field, so properties of durations are stated for times of day
    ([valid_time]). *)
Definition moment_HHmm (t : HHmm) : option Z :=
  if (0 <=? hh t) && (hh t <=? 23) && (0 <=? mm t) && (mm t <=? 59)
  then Some (hh t * 3600 + mm t * 60)
  else if (hh t =? 24) && (mm t =? 0) then Some 86400
  else None.

(** [a.diff(b, 'seconds')]; [None] is NaN. *)
Definition diff_seconds (a b : option Z) : option Z :=
  match a, b with
  | Some x, Some y => Some (x - y)
  | _, _ => None
  end.

(** What the store answers to [getActiveSchedules] and
    [getActiveConditions] during one [init]: the rows, or a rejection. *)
Record StoreAnswer := {
  ans_schedules : Completion (list Schedule);
  ans_conditions : Completion (list Condition)
}.

Section Program.

(** The configuration object ([require('./config')]). *)
Variable cfg : Config.

(** [x => parseFloat(x.toFixed(1))], the decimal rounding of the
    JavaScript runtime. *)
Variable toFixed1 : float -> float.

(** ** GPIOController *)

Definition set_rele (pinIndex : nat) (state : bool) : World -> World :=
  with_gpio (fun g =>
    {| releStates := <[pinIndex := state]> (releStates g); dht11 := dht11 g |}).

Definition rpio_write (pin : option Z) (level : PinLevel) (threw : bool)
  : World -> World :=
  with_hw (fun h => h ++ [ {| rw_pin := pin; rw_level := level; rw_threw := threw |} ]).

(** [controlRele(releId, state, reason)] for a [releId] that is an
    integer, as the scheduler and the relay methods hand it over. The
    guard confines [pinIndex] to 0..3, inside the four-element array of
    the constructor. What the guard does on a value that is no number is
    [relay_guard] below. *)
Definition controlRele (releId : Z) (state : bool) (reason : Reason) (w : World)
  : Completion bool * World :=
  if (releId <? 1) || (releId >? 4) then (Threw ErrInvalidReleId, w)
  else
    let pinIndex := Z.to_nat (releId - 1) in
    let pin := relePins cfg !! pinIndex in
    let pinState :=
      if releActiveLow cfg
      then (if state then LOW else HIGH)
      else (if state then HIGH else LOW) in
    if rpio_write_throws (env w) pin
    then
      let w := rpio_write pin pinState true w in
      let w := console_err (CeControlRele releId (ErrRpioWrite pin)) w in
      let w := saveSystemLog LvlError (MsgReleError releId (ErrRpioWrite pin))
                 SrcGPIOController w in
      (Returned false, w)
    else
      let w := rpio_write pin pinState false w in
      let w := set_rele pinIndex state w in
      let w := saveReleState releId state reason w in
      let w := saveSystemLog LvlInfo (MsgRele releId state reason)
                 SrcGPIOController w in
      (Returned true, w).

(** [getReleState(releId)] for an integer [releId]; [Returned None] is
    [undefined]. *)
Definition getReleState (releId : Z) (w : World) : Completion (option bool) :=
  if (releId <? 1) || (releId >? 4) then Threw ErrInvalidReleId
  else Returned (releStates (gpio w) !! Z.to_nat (releId - 1)).

(** [checkThresholds(temperature, humidity)]. *)
Definition checkThresholds (temperature humidity : float) (w : World) : World :=
  let w :=
    if PrimFloat.ltb temperature (r_min (thr_temperature cfg))
       || PrimFloat.ltb (r_max (thr_temperature cfg)) temperature
    then saveSystemLog LvlWarn (MsgTemperatureOutOfRange temperature)
           SrcGPIOController w
    else w in
  if PrimFloat.ltb humidity (r_min (thr_humidity cfg))
     || PrimFloat.ltb (r_max (thr_humidity cfg)) humidity
  then saveSystemLog LvlWarn (MsgHumidityOutOfRange humidity) SrcGPIOController w
  else w.

(** [readDHT11()], given what [this.dht11.read()] answers.
    [Returned None] is the [null] of the [catch] block (a [read] that
    throws would end in the same block). *)
Definition readDHT11 (answer : option Readout) (w : World)
  : Completion (option (float * float)) * World :=
  match dht11 (gpio w) with
  | None => (Threw ErrDht11NotInitialized, w)
  | Some _ =>
      match answer with
      | Some {| rd_temperature := Some t; rd_humidity := Some h |} =>
          let temperature := toFixed1 t in
          let humidity := toFixed1 h in
          let w := saveSensorReading temperature humidity w in
          let w := checkThresholds temperature humidity w in
          (Returned (Some (temperature, humidity)), w)
      | _ =>
          let w := console_err (CeReadDHT11 ErrDht11InvalidReading) w in
          let w := saveSystemLog LvlError (MsgDht11Error ErrDht11InvalidReading)
                     SrcGPIOController w in
          (Returned None, w)
      end
  end.

(** [this.dht11.read()] with the sensor class of the repository: the
    answer and the world with the sensor's new state and, when the attempt
    failed, the [console.error] of the sensor's [catch] block. *)
Definition dht11_read (raw : Completion (float * float)) (w : World)
  : option Readout * World :=
  match dht11 (gpio w) with
  | None => (None, w)
  | Some s =>
      let '(r, s') := DHT11.read (now (node w)) raw s in
      let w := match DHT11.read_error (now (node w)) raw s with
               | Some e => console_err (CeSensorRead e) w
               | None => w
               end in
      (Some {| rd_temperature := Some (fst r); rd_humidity := Some (snd r) |},
       with_gpio (fun g => {| releStates := releStates g; dht11 := Some s' |}) w)
  end.

(** ** Scheduler *)

(** [createCronExpression(schedule)]:
    `${startMinute} ${startHour} * * ${dayOfWeek}`. *)
Definition createCronExpression (s : Schedule) : CronExpr :=
  {| cr_minute := Num (mm (s_start_time s));
     cr_hour := Num (hh (s_start_time s));
     cr_dom := Star; cr_month := Star;
     cr_dow := Num (s_day_of_week s) |}.

Definition set_activeSchedules (f : list (Z * ActiveSchedule) -> list (Z * ActiveSchedule))
  : World -> World :=
  with_sched (fun s =>
    {| activeSchedules := f (activeSchedules s);
       activeConditions := activeConditions s;
       scheduledTasks := scheduledTasks s; isRunning := isRunning s |}).

Definition set_activeConditions (f : list (Z * Condition) -> list (Z * Condition))
  : World -> World :=
  with_sched (fun s =>
    {| activeSchedules := activeSchedules s;
       activeConditions := f (activeConditions s);
       scheduledTasks := scheduledTasks s; isRunning := isRunning s |}).

Definition set_scheduledTasks (f : list (TaskName * nat) -> list (TaskName * nat))
  : World -> World :=
  with_sched (fun s =>
    {| activeSchedules := activeSchedules s;
       activeConditions := activeConditions s;
       scheduledTasks := f (scheduledTasks s); isRunning := isRunning s |}).

Definition set_isRunning (b : bool) : World -> World :=
  with_sched (fun s =>
    {| activeSchedules := activeSchedules s;
       activeConditions := activeConditions s;
       scheduledTasks := scheduledTasks s; isRunning := b |}).

(** [addSchedule(schedule)]. *)
Definition addSchedule (s : Schedule) (w : World) : World :=
  let cronExpression := createCronExpression s in
  match cron_schedule cronExpression (CbExecuteSchedule s) w with
  | (Threw e, w) => console_err (CeAddSchedule (s_id s) e) w
  | (Returned task, w) =>
      let w := set_activeSchedules
                 (map_set (s_id s)
                    {| as_schedule := s; as_task := task;
                       as_cronExpression := cronExpression |}) w in
      task_start task w
  end.

(** The [duration] computed by [executeSchedule], in seconds ([None] is
    NaN). *)
Definition schedule_duration (s : Schedule) : option Z :=
  let startTime := moment_HHmm (s_start_time s) in
  let endTime := moment_HHmm (s_end_time s) in
  match diff_seconds endTime startTime with
  | Some duration =>
      if duration <? 0 then Some (duration + 24 * 60 * 60) else Some duration
  | None => None
  end.

(** [executeSchedule(schedule)]. *)
Definition executeSchedule (s : Schedule) (w : World) : World :=
  match controlRele (s_rele_id s) true
          (ReasonSchedule (s_start_time s) (s_end_time s)) w with
  | (Threw e, w) =>
      let w := console_err (CeExecuteSchedule (s_id s) e) w in
      saveSystemLog LvlError (MsgScheduleError (s_id s) e) SrcScheduler w
  | (Returned _, w) =>
      let duration := schedule_duration s in
      let w := setTimeout (s_rele_id s)
                 (ReasonScheduleEnd (s_start_time s) (s_end_time s))
                 (option_map (fun d => d * 1000) duration) w in
      saveSystemLog LvlInfo (MsgScheduleExecuted (s_id s) (s_rele_id s))
        SrcScheduler w
  end.

(** [addCondition(condition)]. *)
Definition addCondition (c : Condition) : World -> World :=
  set_activeConditions (map_set (c_id c) c).

(** [startConditionChecker()]. *)
Definition startConditionChecker : World -> World :=
  setInterval (conditionCheckInterval cfg).

(** The [switch] of [evaluateCondition]: [None] for an unknown operator. *)
Definition shouldActivate (op : Operator) (currentValue threshold_value : float)
  : option bool :=
  match op with
  | OpGt => Some (PrimFloat.ltb threshold_value currentValue)
  | OpLt => Some (PrimFloat.ltb currentValue threshold_value)
  | OpGe => Some (PrimFloat.leb threshold_value currentValue)
  | OpLe => Some (PrimFloat.leb currentValue threshold_value)
  | OpEq => Some (PrimFloat.ltb
                    (PrimFloat.abs (PrimFloat.sub currentValue threshold_value))
                    0.5%float)
  | OpOther _ => None
  end.

Definition condition_reason (c : Condition) : Reason :=
  ReasonCondition (c_condition_type c) (c_operator c) (c_threshold_value c).

Definition condition_end_reason (c : Condition) : Reason :=
  ReasonConditionEnd (c_condition_type c) (c_operator c) (c_threshold_value c).

Definition condition_failed (c : Condition) (e : ErrorMsg) (w : World) : World :=
  let w := console_err (CeExecuteCondition (c_id c) e) w in
  saveSystemLog LvlError (MsgConditionError (c_id c) e) SrcScheduler w.

Definition condition_done (c : Condition) : World -> World :=
  saveSystemLog LvlInfo (MsgConditionExecuted (c_id c) (c_rele_id c)) SrcScheduler.

(** [executeCondition(condition, currentValue)]. *)
Definition executeCondition (c : Condition) (currentValue : float) (w : World)
  : World :=
  match c_action c with
  | ActActivate =>
      match controlRele (c_rele_id c) true (condition_reason c) w with
      | (Threw e, w) => condition_failed c e w
      | (Returned _, w) =>
          let w :=
            if c_duration c >? 0
            then setTimeout (c_rele_id c) (condition_end_reason c)
                   (Some (c_duration c * 1000)) w
            else w in
          condition_done c w
      end
  | ActDeactivate =>
      match controlRele (c_rele_id c) false (condition_reason c) w with
      | (Threw e, w) => condition_failed c e w
      | (Returned _, w) => condition_done c w
      end
  | ActOther _ => condition_done c w
  end.

(** The [currentValue] picked by [evaluateCondition]. *)
Definition currentValue_of (c : Condition) (temperature humidity : float) : float :=
  match c_condition_type c with
  | CtTemperature => temperature
  | CtHumidity => humidity
  | CtOther _ => 0%float
  end.

(** [evaluateCondition(condition, temperature, humidity)]. *)
Definition evaluateCondition (c : Condition) (temperature humidity : float)
    (w : World) : World :=
  let currentValue := currentValue_of c temperature humidity in
  match shouldActivate (c_operator c) currentValue (c_threshold_value c) with
  | None => w
  | Some true => executeCondition c currentValue w
  | Some false => w
  end.

(** [checkConditions()], given what the sensor object answers. *)
Definition checkConditions (answer : option Readout) (w : World) : World :=
  match readDHT11 answer w with
  | (Threw e, w) => console_err (CeCheckConditions e) w
  | (Returned None, w) => w
  | (Returned (Some (temperature, humidity)), w) =>
      fold_left (fun w kc => evaluateCondition (snd kc) temperature humidity w)
        (activeConditions (sched w)) w
  end.

(** One poll cycle with the sensor class of the repository. *)
Definition poll (raw : Completion (float * float)) (w : World) : World :=
  let '(answer, w) := dht11_read raw w in
  checkConditions answer w.

(** [createBackup()] and [cleanupOldLogs()]. *)
Definition createBackup (w : World) : World :=
  if db_backup_fails (env w)
  then saveSystemLog LvlError MsgBackupError SrcScheduler (console_err CeCreateBackup w)
  else saveSystemLog LvlInfo MsgBackupCreated SrcScheduler w.

Definition cleanupOldLogs : World -> World :=
  saveSystemLog LvlInfo MsgLogCleanup SrcScheduler.

(** `0 ${config.backup.frequency} * * *` and '0 2 * * *'. *)
Definition backup_expr : CronExpr :=
  {| cr_minute := Num 0; cr_hour := Num (backup_frequency cfg);
     cr_dom := Star; cr_month := Star; cr_dow := Star |}.

Definition logCleanup_expr : CronExpr :=
  {| cr_minute := Num 0; cr_hour := Num 2;
     cr_dom := Star; cr_month := Star; cr_dow := Star |}.

Definition register_task (name : TaskName) (e : CronExpr) (cb : CronCallback)
    (w : World) : Completion unit * World :=
  match cron_schedule e cb w with
  | (Threw err, w) => (Threw err, w)
  | (Returned task, w) =>
      (Returned tt, set_scheduledTasks (map_set name task) (task_start task w))
  end.

(** [startScheduledTasks()]. *)
Definition startScheduledTasks (w : World) : Completion unit * World :=
  let r :=
    if backup_enabled cfg
    then register_task TnBackup backup_expr CbCreateBackup w
    else (Returned tt, w) in
  match r with
  | (Threw err, w) => (Threw err, w)
  | (Returned _, w) => register_task TnLogCleanup logCleanup_expr CbCleanupOldLogs w
  end.

(** [loadActiveSchedules()] and [loadActiveConditions()]: each has its
    own [try]/[catch] around the query. *)
Definition loadActiveSchedules (a : Completion (list Schedule)) (w : World) : World :=
  match a with
  | Returned schedules => fold_left (fun w s => addSchedule s w) schedules w
  | Threw e => console_err (CeLoadSchedules e) w
  end.

Definition loadActiveConditions (a : Completion (list Condition)) (w : World) : World :=
  match a with
  | Returned conditions => fold_left (fun w c => addCondition c w) conditions w
  | Threw e => console_err (CeLoadConditions e) w
  end.

(** [init()]. The two awaited queries are answered by [a]; no other
    callback is interleaved. *)
Definition init (a : StoreAnswer) (w : World) : World :=
  let w := loadActiveSchedules (ans_schedules a) w in
  let w := loadActiveConditions (ans_conditions a) w in
  match startScheduledTasks w with
  | (Threw e, w) =>
      let w := console_err (CeInit e) w in
      saveSystemLog LvlError (MsgSchedulerInitError e) SrcScheduler w
  | (Returned _, w) =>
      let w := startConditionChecker w in
      let w := set_isRunning true w in
      saveSystemLog LvlInfo MsgSchedulerInit SrcScheduler w
  end.

(** [stop()]. *)
Definition stop (w : World) : World :=
  let w := fold_left (fun w kt => task_stop (snd kt) w) (scheduledTasks (sched w)) w in
  let w := with_sched (fun s =>
             {| activeSchedules := map_clear (activeSchedules s);
                activeConditions := map_clear (activeConditions s);
                scheduledTasks := map_clear (scheduledTasks s);
                isRunning := isRunning s |}) w in
  let w := set_isRunning false w in
  saveSystemLog LvlInfo MsgSchedulerStopped SrcScheduler w.

(** [restart()]. *)
Definition restart (a : StoreAnswer) (w : World) : World :=
  init a (stop w).

(** [getStatus()], without the [nextBackup] text. *)
Record Status := {
  st_isRunning : bool;
  st_activeSchedules : Z;
  st_activeConditions : Z;
  st_scheduledTasks : Z
}.

Definition getStatus (w : World) : Status :=
  {| st_isRunning := isRunning (sched w);
     st_activeSchedules := map_size (activeSchedules (sched w));
     st_activeConditions := map_size (activeConditions (sched w));
     st_scheduledTasks := map_size (scheduledTasks (sched w)) |}.

(** ** The event loop *)

Definition run_callback (cb : CronCallback) : World -> World :=
  match cb with
  | CbExecuteSchedule s => executeSchedule s
  | CbCreateBackup => createBackup
  | CbCleanupOldLogs => cleanupOldLogs
  end.

(** The wall clock reaches minute [m]: every started task whose pattern
    matches runs its callback, in the order of creation. *)
Definition cron_tick (m : Moment) (w : World) : World :=
  fold_left
    (fun w t =>
       if ct_running t && cron_matches (ct_expr t) m
       then run_callback (ct_callback t) w else w)
    (cronTasks (node w)) w.

(** A timeout fires. An exception of the callback has no handler. *)
Definition fire_timeout (t : Timeout) (w : World) : World :=
  match controlRele (to_rele t) false (to_reason t) w with
  | (Returned _, w) => w
  | (Threw e, w) =>
      with_node (fun n =>
        {| now := now n; cronTasks := cronTasks n; timeouts := timeouts n;
           intervals := intervals n; console_error := console_error n;
           uncaught := uncaught n ++ [e] |}) w
  end.

Fixpoint insert_by_due (t : Timeout) (l : list Timeout) : list Timeout :=
  match l with
  | [] => [t]
  | x :: l' => if to_due t <? to_due x then t :: l else x :: insert_by_due t l'
  end.

(** Timeouts by due time, equal times in the order of arming. *)
Definition by_due (l : list Timeout) : list Timeout :=
  fold_left (fun acc t => insert_by_due t acc) l [].

Definition is_due (t : Z) (x : Timeout) : bool := to_due x <=? t.

(** The clock advances to [t]: the timeouts due by then fire and leave
    the timer list. *)
Definition run_timers (t : Z) (w : World) : World :=
  let due := by_due (filter (fun x => is_due t x = true) (timeouts (node w))) in
  let w := with_node (fun n =>
             {| now := t; cronTasks := cronTasks n;
                timeouts := filter (fun x => is_due t x = false) (timeouts n);
                intervals := intervals n; console_error := console_error n;
                uncaught := uncaught n |}) w in
  fold_left (fun w x => fire_timeout x w) due w.

(** The pending deactivations of one relay. *)
Definition pending_for (rele : Z) (w : World) : list Timeout :=
  filter (fun x => to_rele x = rele) (timeouts (node w)).

End Program.

(** ** The other relay methods of GPIOController and one of their callers *)

(** One element of the array [getAllReleStates] returns. *)
Record ReleInfo := { ri_releId : Z; ri_state : bool; ri_gpioPin : option Z }.

Section RelayMethods.

Variable cfg : Config.

(** [getAllReleStates()]. *)
Definition getAllReleStates (w : World) : list ReleInfo :=
  imap (fun index state =>
          {| ri_releId := Z.of_nat index + 1; ri_state := state;
             ri_gpioPin := relePins cfg !! index |})
    (releStates (gpio w)).

(** [activateReleTimed(releId, duration, reason)]; [reason] is the text
    the caller passes (default 'Activación temporal'). *)
Definition activateReleTimed (releId duration : Z) (reason : string) (w : World)
  : Completion unit * World :=
  if (releId <? 1) || (releId >? 4) then (Threw ErrInvalidReleId, w)
  else
    match controlRele cfg releId true (ReasonText reason) w with
    | (Threw e, w) => (Threw e, w)
    | (Returned _, w) =>
        let w := setTimeout releId
                   (ReasonText (String.append reason " - Desactivación automática"))
                   (Some (duration * 1000)) w in
        (Returned tt, w)
    end.

(** The loop [for (let i = 1; i <= 4; i++) this.controlRele(i, state, reason)],
    over the ids still to do. *)
Fixpoint controlRele_each (ids : list Z) (state : bool) (reason : Reason) (w : World)
  : Completion unit * World :=
  match ids with
  | [] => (Returned tt, w)
  | i :: ids' =>
      match controlRele cfg i state reason w with
      | (Threw e, w) => (Threw e, w)
      | (Returned _, w) => controlRele_each ids' state reason w
      end
  end.

(** [activateAllRele(reason)] and [deactivateAllRele(reason)]. *)
Definition activateAllRele (reason : Reason) : World -> Completion unit * World :=
  controlRele_each [1; 2; 3; 4] true reason.

Definition deactivateAllRele (reason : Reason) : World -> Completion unit * World :=
  controlRele_each [1; 2; 3; 4] false reason.


End RelayMethods.

(** [m.get(k)] on the association list of a [Map]. *)
Fixpoint map_get {K V : Type} `{EqDecision K} (k : K) (m : list (K * V)) : option V :=
  match m with
  | [] => None
  | (k', v) :: m' => if decide (k' = k) then Some v else map_get k m'
  end.

(** ** Concrete worlds and rules *)

(** An environment in which every pin write succeeds. *)
Definition env_ok : Env :=
  {| rpio_write_throws := fun _ => false; db_backup_fails := false |}.

(** An environment in which every pin write throws. *)
Definition env_faulty : Env :=
  {| rpio_write_throws := fun _ => true; db_backup_fails := false |}.

(** The sensor object after its constructor, in simulation mode. *)
Definition sensor_new : DHT11.Sensor :=
  {| DHT11.lastReading := None; DHT11.lastReadTime := 0;
     DHT11.simulationMode := true |}.

(** The state after the field initialisers of [new Scheduler()], before
    its [init()]: four relays off, empty maps, no timer. *)
Definition world_new (e : Env) : World :=
  {| env := e;
     hw := [];
     db := {| system_logs := []; rele_states := []; sensor_readings := [] |};
     gpio := {| releStates := [false; false; false; false]; dht11 := Some sensor_new |};
     node := {| now := 0; cronTasks := []; timeouts := []; intervals := [];
                console_error := []; uncaught := [] |};
     sched := {| activeSchedules := []; activeConditions := [];
                 scheduledTasks := []; isRunning := false |} |}.

(** A configuration like src/config.js, with a backup frequency that is a
    valid cron hour (6 is one of the values src/SOLUCION_PROGRAMADOR.md
    lists). *)
Definition config_backup6 : Config :=
  {| relePins := relePins config_js;
     releActiveLow := releActiveLow config_js;
     conditionCheckInterval := conditionCheckInterval config_js;
     thr_temperature := thr_temperature config_js;
     thr_humidity := thr_humidity config_js;
     backup_enabled := true;
     backup_frequency := 6 |}.

(** The schedule of the scheduler test script: relay 1, Monday, 08:00 to
    18:00. *)
Definition schedule_monday : Schedule :=
  {| s_id := 1; s_rele_id := 1; s_day_of_week := 1;
     s_start_time := {| hh := 8; mm := 0 |};
     s_end_time := {| hh := 18; mm := 0 |} |}.

Definition monday_0800 : Moment :=
  {| m_minute := 0; m_hour := 8; m_dom := 2; m_month := 11; m_dow := 1 |}.

(** Relay 2 on while the temperature is above 30, for 900 seconds. *)
Definition condition_hot : Condition :=
  {| c_id := 1; c_rele_id := 2; c_condition_type := CtTemperature;
     c_threshold_value := 30%float; c_operator := OpGt;
     c_action := ActActivate; c_duration := 900 |}.

Definition store_one_schedule : StoreAnswer :=
  {| ans_schedules := Returned [schedule_monday];
     ans_conditions := Returned [condition_hot] |}.


(** Rounding left out: the runtime function on values that already have
    one decimal. *)
Definition toFixed1_id (x : float) : float := x.

(** [new Scheduler()] with a store that holds the Monday schedule and the
    temperature condition: once with a schedulable backup hour, once with
    src/config.js as it is. *)
Definition world_running : World :=
  init config_backup6 store_one_schedule (world_new env_ok).

Definition world_shipped : World :=
  init config_js store_one_schedule (world_new env_ok).

(** A schedule that starts and ends at 08:00. *)
Definition schedule_same : Schedule :=
  {| s_id := 2; s_rele_id := 1; s_day_of_week := 1;
     s_start_time := {| hh := 8; mm := 0 |};
     s_end_time := {| hh := 8; mm := 0 |} |}.

(** A schedule that starts at hour 24. *)
Definition schedule_hour24 : Schedule :=
  {| s_id := 3; s_rele_id := 1; s_day_of_week := 1;
     s_start_time := {| hh := 24; mm := 0 |};
     s_end_time := {| hh := 6; mm := 0 |} |}.

(** A condition with operator '==' and threshold 25.0. *)
Definition condition_eq25 : Condition :=
  {| c_id := 2; c_rele_id := 3; c_condition_type := CtTemperature;
     c_threshold_value := 25.0%float; c_operator := OpEq;
     c_action := ActActivate; c_duration := 0 |}.

(** Two samples above 30 degrees, one minute apart: the condition is
    executed at clock 0 and again at clock 60000. *)
Definition world_hot_once : World :=
  executeCondition config_backup6 condition_hot 31.2%float world_running.

Definition world_hot_twice : World :=
  executeCondition config_backup6 condition_hot 31.5%float
    (run_timers config_backup6 60000 world_hot_once).

(** The Monday schedule has fired: relay 1 is on and its deactivation is
    pending. *)
Definition world_monday_on : World :=
  cron_tick config_backup6 monday_0800 world_running.

(** [restart()] once and twice after [new Scheduler()], configuration and
    store as shipped. *)
Definition world_restarted_once : World :=
  restart config_js store_one_schedule world_shipped.

Definition world_restarted_twice : World :=
  restart config_js store_one_schedule world_restarted_once.

(** The same with the schedulable backup hour. *)
Definition world_running_restarted_twice : World :=
  restart config_backup6 store_one_schedule
    (restart config_backup6 store_one_schedule world_running).


(** Relay 2 off while the temperature is below 20. *)
Definition condition_off : Condition :=
  {| c_id := 3; c_rele_id := 2; c_condition_type := CtTemperature;
     c_threshold_value := 20%float; c_operator := OpLt;
     c_action := ActDeactivate; c_duration := 0 |}.

(** Relay 2 on for 3000000 seconds (about 35 days). *)
Definition condition_long_hold : Condition :=
  {| c_id := 5; c_rele_id := 2; c_condition_type := CtTemperature;
     c_threshold_value := 30%float; c_operator := OpGt;
     c_action := ActActivate; c_duration := 3000000 |}.

(** ** What the claims speak of *)

Definition valid_time (t : HHmm) : Prop :=
  0 <= hh t <= 23 /\ 0 <= mm t <= 59.

(** A time of day in seconds after midnight. *)
Definition seconds_of (t : HHmm) : Z := hh t * 3600 + mm t * 60.

(** The ON-duration as the specification words it: T2-T1 when T2>T1, and
    (24h-T1)+T2 when T2<=T1. *)
Definition spec_duration (T1 T2 : Z) : Z :=
  if T2 >? T1 then T2 - T1 else (24 * 3600 - T1) + T2.

(** Does a cron task run [executeSchedule] for schedule [id]? *)
Definition fires_schedule (id : Z) (t : CronTask) : bool :=
  match ct_callback t with
  | CbExecuteSchedule s => s_id s =? id
  | _ => false
  end.

(** The started cron tasks that fire schedule [id]. *)
Definition live_schedule_triggers (id : Z) (w : World) : list CronTask :=
  filter (fun t => ct_running t && fires_schedule id t = true) (cronTasks (node w)).

(** The started cron tasks that run [createBackup]. *)
Definition live_backup_triggers (w : World) : list CronTask :=
  filter (fun t => ct_running t
                   && (if ct_callback t is CbCreateBackup then true else false) = true)
    (cronTasks (node w)).

(** Is the cron task with handle [task] started? *)
Definition task_running (task : nat) (w : World) : bool :=
  match cronTasks (node w) !! task with
  | Some t => ct_running t
  | None => false
  end.


(** Two worlds with the same timers, cron tasks, clock, scheduler object
    and environment. *)
Definition same_timers (w w' : World) : Prop :=
  env w' = env w /\ sched w' = sched w /\ now (node w') = now (node w)
  /\ cronTasks (node w') = cronTasks (node w)
  /\ timeouts (node w') = timeouts (node w)
  /\ intervals (node w') = intervals (node w).

(** A read of the sensor that failed: [readFromGPIO] threw, or the values
    did not pass [isValidReading]. *)
Definition read_failed (raw : Completion (float * float)) : Prop :=
  match raw with
  | Threw _ => True
  | Returned (t, h) => DHT11.isValidReading t h = false
  end.

(** What neither [stop] nor [init] may touch: the environment, the pins,
    the relay object, the relay-state table, the clock and the pending
    timeouts. *)
Definition actuators_untouched (w w' : World) : Prop :=
  env w' = env w /\ hw w' = hw w /\ gpio w' = gpio w
  /\ rele_states (db w') = rele_states (db w)
  /\ now (node w') = now (node w)
  /\ timeouts (node w') = timeouts (node w).

(** ** What the further properties speak of *)

(** The level [controlRele] writes for [state]: LOW switches a relay on
    when the relays are active-low, HIGH otherwise. *)
Definition level_for (cfg : Config) (state : bool) : PinLevel :=
  if Bool.eqb state (releActiveLow cfg) then LOW else HIGH.

(** The guard [releId < 1 || releId > 4] of [controlRele] and
    [getReleState] on a JavaScript number. The two comparisons convert
    their left operand to a number first: [undefined], and text that is no
    numeral, are compared as NaN. *)
Definition relay_guard (releId : float) : bool :=
  PrimFloat.ltb releId 1%float || PrimFloat.ltb 4%float releId.

(** The pin of relay [releId] and whether writing it throws in [w]. *)
Definition pin_of (cfg : Config) (releId : Z) : option Z :=
  relePins cfg !! Z.to_nat (releId - 1).

Definition write_fails (cfg : Config) (releId : Z) (w : World) : bool :=
  rpio_write_throws (env w) (pin_of cfg releId).

(** Every pin write goes through. *)
Definition pins_work (w : World) : Prop :=
  forall pin, rpio_write_throws (env w) pin = false.

(** The reading the sensor object keeps, if any, passes [isValidReading]. *)
Definition sensor_ok (s : DHT11.Sensor) : Prop :=
  match DHT11.lastReading s with
  | Some (t, h) => DHT11.isValidReading t h = true
  | None => True
  end.


(** Does node-cron accept the pattern? *)
Definition cron_ok (e : CronExpr) : bool :=
  if cron_validate e is None then true else false.

(** The start time of a schedule gives a cron minute and a cron hour. *)
Definition start_in_range (s : Schedule) : bool :=
  (0 <=? mm (s_start_time s)) && (mm (s_start_time s) <=? 59)
  && (0 <=? hh (s_start_time s)) && (hh (s_start_time s) <=? 23).

(** The started task [addSchedule] creates for a schedule. *)
Definition schedule_task (s : Schedule) : CronTask :=
  {| ct_expr := createCronExpression s; ct_callback := CbExecuteSchedule s;
     ct_running := true |}.

(** * Properties *)

Lemma fold_left_invariant {A B : Type} (f : A -> B -> A) (I : A -> Prop) :
  (forall a b, I a -> I (f a b)) ->
  forall l a, I a -> I (fold_left f l a).
Proof.
  intros Hstep l. induction l as [|b l IH]; intros a Ha; simpl; auto.
Qed.

Section Properties.

Variable cfg : Config.
Variable toFixed1 : float -> float.

(** ** The range guard of the relay methods *)

Lemma range_guard_false (releId : Z) :
  1 <= releId <= 4 -> (releId <? 1) || (releId >? 4) = false.
Proof. intros H. apply orb_false_iff. split; lia. Qed.

Lemma range_guard_true (releId : Z) :
  releId < 1 \/ releId > 4 -> (releId <? 1) || (releId >? 4) = true.
Proof. intros H. apply orb_true_iff. destruct H; [left | right]; lia. Qed.

(** On integers the guard does what its message says. For an integer
    relay id outside 1..4, [controlRele] and [getReleState] throw and the
    world (pins, relay array, store) is as before; for an id in 1..4,
    [getReleState] returns entry [releId - 1] of the relay array. *)
Theorem relay_id_guard (releId : Z) (state : bool) (reason : Reason) (w : World) :
  (releId < 1 \/ releId > 4 ->
     controlRele cfg releId state reason w = (Threw ErrInvalidReleId, w)
     /\ getReleState releId w = Threw ErrInvalidReleId)
  /\ (1 <= releId <= 4 ->
     getReleState releId w = Returned (releStates (gpio w) !! Z.to_nat (releId - 1))).
Proof.
  split; intros H.
  - unfold controlRele, getReleState. rewrite (range_guard_true _ H). auto.
  - unfold getReleState. rewrite (range_guard_false _ H). reflexivity.
Qed.

(** C10. The guard [releId < 1 || releId > 4] is false at NaN, the number
    both comparisons make of [undefined], of NaN and of text that is no
    numeral: for such a relay id neither [controlRele] nor [getReleState]
    throws, although the id is not between 1 and 4, and [controlRele]
    goes on to [rpio.write]. At the numbers 0, 5 and -1 the guard is true
    (the methods throw); at 1 and 4 it is false. *)
Theorem relay_guard_misses_nan :
  relay_guard nan = false
  /\ relay_guard 0%float = true
  /\ relay_guard 5%float = true
  /\ relay_guard (-1)%float = true
  /\ relay_guard 1%float = false
  /\ relay_guard 4%float = false.
Proof. repeat split; reflexivity. Qed.

(** ** One transition *)

(** C7 (amended). For a relay id in 1..4, [controlRele] calls
    [rpio.write] exactly once, on the pin of the relay and with the level
    of the commanded state. When the write goes through, the relay array
    is set at [releId - 1], one row (relay, state, reason) is appended to
    the relay-state table and one entry of level info, naming relay,
    state and reason, to the system log, and the call returns [true].
    When the write throws, no row is appended to the relay-state table
    and the relay array is as before; the failure is written with
    [console.error] and as one entry of level error in the system log,
    and the call returns [false]. Nothing else changes in either case:
    no second write, no timer, no stored sample. An integer id outside
    1..4 is rejected before any write or log entry. *)
Theorem controlRele_transition (releId : Z) (state : bool) (reason : Reason)
    (w : World) :
  (1 <= releId <= 4 ->
   let pinIndex := Z.to_nat (releId - 1) in
   let pin := relePins cfg !! pinIndex in
   let failed := rpio_write_throws (env w) pin in
   let r := fst (controlRele cfg releId state reason w) in
   let w' := snd (controlRele cfg releId state reason w) in
   hw w' = hw w ++ [ {| rw_pin := pin; rw_level := level_for cfg state;
                        rw_threw := failed |} ]
   /\ r = Returned (negb failed)
   /\ releStates (gpio w') =
        (if failed then releStates (gpio w)
         else <[pinIndex := state]> (releStates (gpio w)))
   /\ rele_states (db w') =
        (if failed then rele_states (db w)
         else rele_states (db w) ++
                [ {| rs_rele_id := releId; rs_state := state; rs_reason := reason |} ])
   /\ system_logs (db w') =
        system_logs (db w) ++
          [ if failed
            then {| le_level := LvlError;
                    le_message := MsgReleError releId (ErrRpioWrite pin);
                    le_source := SrcGPIOController |}
            else {| le_level := LvlInfo;
                    le_message := MsgRele releId state reason;
                    le_source := SrcGPIOController |} ]
   /\ console_error (node w') =
        (if failed
         then console_error (node w) ++ [ CeControlRele releId (ErrRpioWrite pin) ]
         else console_error (node w))
   /\ sensor_readings (db w') = sensor_readings (db w)
   /\ dht11 (gpio w') = dht11 (gpio w)
   /\ same_timers w w'
   /\ uncaught (node w') = uncaught (node w))
  /\ (releId < 1 \/ releId > 4 ->
      controlRele cfg releId state reason w = (Threw ErrInvalidReleId, w)).
Proof.
  split.
  - intros H pinIndex pin failed r w'. subst r w'.
    unfold controlRele, same_timers, level_for. rewrite (range_guard_false _ H).
    fold pinIndex. fold pin. fold failed.
    destruct failed; destruct (releActiveLow cfg); destruct state; simpl;
      repeat split; reflexivity.
  - intros H. unfold controlRele. rewrite (range_guard_true _ H). reflexivity.
Qed.

(** [controlRele] touches no timer, no cron task and no scheduler
    field, whatever its outcome. *)
Lemma controlRele_same_timers (releId : Z) (state : bool) (reason : Reason)
    (w : World) :
  same_timers w (snd (controlRele cfg releId state reason w)).
Proof.
  unfold controlRele, same_timers.
  destruct ((releId <? 1) || (releId >? 4)); simpl; [tauto|].
  destruct (rpio_write_throws _ _); simpl; tauto.
Qed.

(** For an id in 1..4 it returns, it does not throw. *)
Lemma controlRele_returns (releId : Z) (state : bool) (reason : Reason)
    (w : World) :
  1 <= releId <= 4 ->
  exists b, fst (controlRele cfg releId state reason w) = Returned b.
Proof.
  intros H. unfold controlRele. rewrite (range_guard_false _ H).
  destruct (rpio_write_throws _ _); simpl; eauto.
Qed.

(** ** The '==' operator *)

(** C9. For a condition with operator '==' and threshold 25.0 the test is
    |currentValue - threshold| < 0.5 on binary64 numbers: the value 25.4
    makes it true, so that [evaluateCondition] runs [executeCondition],
    and the value 25.6 makes it false, so that [evaluateCondition] does
    nothing. *)
Theorem eq_operator_tolerance (c : Condition) (temperature humidity : float)
    (w : World) :
  c_operator c = OpEq ->
  c_threshold_value c = 25.0%float ->
  (forall v, shouldActivate (c_operator c) v (c_threshold_value c)
             = Some (PrimFloat.ltb (PrimFloat.abs (PrimFloat.sub v 25.0%float))
                       0.5%float))
  /\ shouldActivate (c_operator c) 25.4%float (c_threshold_value c) = Some true
  /\ shouldActivate (c_operator c) 25.6%float (c_threshold_value c) = Some false
  /\ (currentValue_of c temperature humidity = 25.4%float ->
      evaluateCondition cfg c temperature humidity w
      = executeCondition cfg c 25.4%float w)
  /\ (currentValue_of c temperature humidity = 25.6%float ->
      evaluateCondition cfg c temperature humidity w = w).
Proof.
  intros Hop Hthr. unfold evaluateCondition. rewrite Hop, Hthr.
  repeat split.
  - intros Hv. rewrite Hv. reflexivity.
  - intros Hv. rewrite Hv. reflexivity.
Qed.


(** ** The duration of a schedule and the deactivation it arms *)

Lemma moment_valid (t : HHmm) :
  valid_time t -> moment_HHmm t = Some (seconds_of t).
Proof.
  intros [Hh Hm]. unfold moment_HHmm, seconds_of.
  replace ((0 <=? hh t) && (hh t <=? 23) && (0 <=? mm t) && (mm t <=? 59))
    with true; [reflexivity|].
  symmetry. repeat (apply andb_true_iff; split); lia.
Qed.

Lemma seconds_of_range (t : HHmm) :
  valid_time t -> 0 <= seconds_of t < 24 * 3600.
Proof. intros [Hh Hm]. unfold seconds_of. lia. Qed.

Lemma schedule_duration_valid (s : Schedule) :
  valid_time (s_start_time s) -> valid_time (s_end_time s) ->
  schedule_duration s
  = Some ((seconds_of (s_end_time s) - seconds_of (s_start_time s)) mod (24 * 3600)).
Proof.
  intros H1 H2. unfold schedule_duration.
  rewrite (moment_valid _ H1), (moment_valid _ H2). simpl diff_seconds. cbv iota beta.
  pose proof (seconds_of_range _ H1). pose proof (seconds_of_range _ H2).
  destruct (Z.ltb_spec (seconds_of (s_end_time s) - seconds_of (s_start_time s)) 0).
  - f_equal. apply Z.mod_unique with (q := -1); lia.
  - f_equal. apply Z.mod_unique with (q := 0); lia.
Qed.

(** [executeSchedule] on a relay id in 1..4: the deactivation is appended
    to the pending timeouts; nothing is removed. *)
Lemma executeSchedule_arms (s : Schedule) (w : World) :
  1 <= s_rele_id s <= 4 ->
  timeouts (node (executeSchedule cfg s w))
  = timeouts (node w) ++
      [ {| to_due := now (node w)
                     + timer_delay (option_map (fun d => d * 1000) (schedule_duration s));
           to_rele := s_rele_id s;
           to_reason := ReasonScheduleEnd (s_start_time s) (s_end_time s) |} ].
Proof.
  intros H. unfold executeSchedule.
  pose proof (controlRele_returns (s_rele_id s) true
                (ReasonSchedule (s_start_time s) (s_end_time s)) w H) as [b Hb].
  pose proof (controlRele_same_timers (s_rele_id s) true
                (ReasonSchedule (s_start_time s) (s_end_time s)) w)
    as (_ & _ & Hnow & _ & Hto & _).
  destruct (controlRele cfg _ _ _ w) as [r w1]. simpl in *. subst r.
  simpl. rewrite Hto, Hnow. reflexivity.
Qed.

(** [executeCondition] with action activate and a positive duration, on
    a relay id in 1..4: likewise. *)
Lemma executeCondition_arms (c : Condition) (v : float) (w : World) :
  1 <= c_rele_id c <= 4 ->
  c_action c = ActActivate ->
  c_duration c > 0 ->
  timeouts (node (executeCondition cfg c v w))
  = timeouts (node w) ++
      [ {| to_due := now (node w) + timer_delay (Some (c_duration c * 1000));
           to_rele := c_rele_id c;
           to_reason := condition_end_reason c |} ].
Proof.
  intros H Hact Hdur. unfold executeCondition. rewrite Hact.
  pose proof (controlRele_returns (c_rele_id c) true (condition_reason c) w H)
    as [b Hb].
  pose proof (controlRele_same_timers (c_rele_id c) true (condition_reason c) w)
    as (_ & _ & Hnow & _ & Hto & _).
  destruct (controlRele cfg _ _ _ w) as [r w1]. simpl in *. subst r.
  replace (c_duration c >? 0) with true by (symmetry; lia).
  simpl. rewrite Hto, Hnow. reflexivity.
Qed.

(** C4 (amended). For a schedule with valid times T1 (start) and T2 (end),
    the duration computed by [executeSchedule] is T2-T1 seconds when
    T2>=T1 and (24h-T1)+T2 seconds when T2<T1, that is (T2-T1) mod 24h;
    and on a relay id in 1..4 the deactivation is armed that many
    seconds (as a Node timer delay in milliseconds) after the clock
    value of the call. *)
Theorem schedule_duration_wraps (s : Schedule) (w : World) :
  valid_time (s_start_time s) ->
  valid_time (s_end_time s) ->
  let T1 := seconds_of (s_start_time s) in
  let T2 := seconds_of (s_end_time s) in
  schedule_duration s
  = Some (if T2 >=? T1 then T2 - T1 else (24 * 3600 - T1) + T2)
  /\ schedule_duration s = Some ((T2 - T1) mod (24 * 3600))
  /\ (1 <= s_rele_id s <= 4 ->
      timeouts (node (executeSchedule cfg s w))
      = timeouts (node w) ++
          [ {| to_due := now (node w)
                         + timer_delay (Some ((T2 - T1) mod (24 * 3600) * 1000));
               to_rele := s_rele_id s;
               to_reason := ReasonScheduleEnd (s_start_time s) (s_end_time s) |} ]).
Proof.
  intros H1 H2. cbv zeta.
  pose proof (schedule_duration_valid s H1 H2) as Hd.
  pose proof (seconds_of_range _ H1). pose proof (seconds_of_range _ H2).
  set (T1 := seconds_of (s_start_time s)) in *.
  set (T2 := seconds_of (s_end_time s)) in *.
  repeat split.
  - rewrite Hd. f_equal. symmetry. destruct (Z.geb_spec T2 T1).
    + apply Z.mod_unique with (q := 0); lia.
    + apply Z.mod_unique with (q := -1); lia.
  - exact Hd.
  - intros Hr. rewrite (executeSchedule_arms s w Hr), Hd. reflexivity.
Qed.

(** ** Pending deactivations *)

Lemma pending_for_app (rele : Z) (w w' : World) (t : Timeout) :
  timeouts (node w') = timeouts (node w) ++ [t] ->
  to_rele t = rele ->
  pending_for rele w' = pending_for rele w ++ [t].
Proof.
  intros Hto Hr. unfold pending_for. rewrite Hto, filter_app. f_equal.
  rewrite filter_cons. destruct (decide (to_rele t = rele)); [reflexivity|tauto].
Qed.

(** C1 (amended). Pending deactivations are stacked: on a relay id in
    1..4, [executeSchedule], and [executeCondition] with action activate
    and a positive duration, append one pending deactivation for that
    relay, due one timer delay after the clock value of the call, and
    keep every earlier one; two runs in sequence leave two more. *)
Theorem arming_stacks (s : Schedule) (c : Condition) (v : float) (w : World) :
  (1 <= s_rele_id s <= 4 ->
     pending_for (s_rele_id s) (executeSchedule cfg s w)
     = pending_for (s_rele_id s) w ++
         [ {| to_due := now (node w)
                        + timer_delay (option_map (fun d => d * 1000)
                                         (schedule_duration s));
              to_rele := s_rele_id s;
              to_reason := ReasonScheduleEnd (s_start_time s) (s_end_time s) |} ]
     /\ length (pending_for (s_rele_id s)
                  (executeSchedule cfg s (executeSchedule cfg s w)))
        = (length (pending_for (s_rele_id s) w) + 2)%nat)
  /\ (1 <= c_rele_id c <= 4 -> c_action c = ActActivate -> c_duration c > 0 ->
     pending_for (c_rele_id c) (executeCondition cfg c v w)
     = pending_for (c_rele_id c) w ++
         [ {| to_due := now (node w) + timer_delay (Some (c_duration c * 1000));
              to_rele := c_rele_id c;
              to_reason := condition_end_reason c |} ]
     /\ length (pending_for (c_rele_id c)
                  (executeCondition cfg c v (executeCondition cfg c v w)))
        = (length (pending_for (c_rele_id c) w) + 2)%nat).
Proof.
  split.
  - intros H.
    assert (Hone : forall w0,
               pending_for (s_rele_id s) (executeSchedule cfg s w0)
               = pending_for (s_rele_id s) w0 ++
                   [ {| to_due := now (node w0)
                                  + timer_delay (option_map (fun d => d * 1000)
                                                   (schedule_duration s));
                        to_rele := s_rele_id s;
                        to_reason := ReasonScheduleEnd (s_start_time s)
                                       (s_end_time s) |} ]).
    { intros w0. apply pending_for_app; [|reflexivity].
      apply executeSchedule_arms, H. }
    split; [apply Hone|].
    rewrite Hone, Hone, !length_app. simpl. lia.
  - intros H Hact Hdur.
    assert (Hone : forall w0,
               pending_for (c_rele_id c) (executeCondition cfg c v w0)
               = pending_for (c_rele_id c) w0 ++
                   [ {| to_due := now (node w0)
                                  + timer_delay (Some (c_duration c * 1000));
                        to_rele := c_rele_id c;
                        to_reason := condition_end_reason c |} ]).
    { intros w0. apply pending_for_app; [|reflexivity].
      apply executeCondition_arms; assumption. }
    split; [apply Hone|].
    rewrite Hone, Hone, !length_app. simpl. lia.
Qed.

(** ** Registration of a schedule *)

Lemma invalid_start_rejected (s : Schedule) :
  (hh (s_start_time s) < 0 \/ hh (s_start_time s) > 23
   \/ mm (s_start_time s) < 0 \/ mm (s_start_time s) > 59) ->
  exists e, cron_validate (createCronExpression s) = Some e.
Proof.
  intros H. unfold cron_validate, createCronExpression. simpl.
  destruct (Z.leb_spec 0 (mm (s_start_time s)));
    destruct (Z.leb_spec (mm (s_start_time s)) 59); simpl; eauto.
  destruct (Z.leb_spec 0 (hh (s_start_time s)));
    destruct (Z.leb_spec (hh (s_start_time s)) 23); simpl; eauto.
  lia.
Qed.

(** C6. For a schedule whose start hour is outside 0..23 or whose start
    minute is outside 0..59, [addSchedule] ends in its [catch] block: the
    error thrown by [cron.schedule] is written with [console.error] and
    nothing else changes; no cron task, no timeout and no entry of
    [activeSchedules] is created. *)
Theorem addSchedule_rejects_invalid_start (s : Schedule) (w : World) :
  (hh (s_start_time s) < 0 \/ hh (s_start_time s) > 23
   \/ mm (s_start_time s) < 0 \/ mm (s_start_time s) > 59) ->
  (exists e, addSchedule s w = console_err (CeAddSchedule (s_id s) e) w
             /\ console_error (node (addSchedule s w))
                = console_error (node w) ++ [CeAddSchedule (s_id s) e])
  /\ cronTasks (node (addSchedule s w)) = cronTasks (node w)
  /\ timeouts (node (addSchedule s w)) = timeouts (node w)
  /\ intervals (node (addSchedule s w)) = intervals (node w)
  /\ sched (addSchedule s w) = sched w
  /\ live_schedule_triggers (s_id s) (addSchedule s w)
     = live_schedule_triggers (s_id s) w.
Proof.
  intros H. destruct (invalid_start_rejected s H) as [e He].
  assert (Heq : addSchedule s w = console_err (CeAddSchedule (s_id s) e) w).
  { unfold addSchedule, cron_schedule. rewrite He. reflexivity. }
  unfold live_schedule_triggers. rewrite Heq. simpl. eauto 10.
Qed.

(** ** What [stop] and [init] leave alone *)

Lemma untouched_refl (w : World) : actuators_untouched w w.
Proof. unfold actuators_untouched. tauto. Qed.

Lemma untouched_trans (w1 w2 w3 : World) :
  actuators_untouched w1 w2 -> actuators_untouched w2 w3 ->
  actuators_untouched w1 w3.
Proof.
  unfold actuators_untouched.
  intros (A1 & A2 & A3 & A4 & A5 & A6) (B1 & B2 & B3 & B4 & B5 & B6).
  repeat split; congruence.
Qed.

Lemma untouched_fold {B : Type} (f : World -> B -> World) :
  (forall w b, actuators_untouched w (f w b)) ->
  forall l w, actuators_untouched w (fold_left f l w).
Proof.
  intros Hf l w.
  apply (fold_left_invariant f (actuators_untouched w)).
  - intros a b Ha. eapply untouched_trans; [exact Ha | apply Hf].
  - apply untouched_refl.
Qed.

Lemma addSchedule_untouched (s : Schedule) (w : World) :
  actuators_untouched w (addSchedule s w).
Proof.
  unfold addSchedule, cron_schedule.
  destruct (cron_validate _); unfold actuators_untouched; simpl; tauto.
Qed.

Lemma addCondition_untouched (c : Condition) (w : World) :
  actuators_untouched w (addCondition c w).
Proof. unfold actuators_untouched. simpl. tauto. Qed.

Lemma register_task_untouched (name : TaskName) (e : CronExpr)
    (cb : CronCallback) (w : World) :
  actuators_untouched w (snd (register_task name e cb w)).
Proof.
  unfold register_task, cron_schedule.
  destruct (cron_validate _); unfold actuators_untouched; simpl; tauto.
Qed.

Lemma startScheduledTasks_untouched (w : World) :
  actuators_untouched w (snd (startScheduledTasks cfg w)).
Proof.
  unfold startScheduledTasks.
  destruct (backup_enabled cfg); cbv beta iota zeta.
  - pose proof (register_task_untouched TnBackup (backup_expr cfg)
                  CbCreateBackup w) as H1.
    destruct (register_task TnBackup _ _ w) as [[u|e] w1];
      cbv beta iota zeta; cbn [snd] in H1; [|exact H1].
    eapply untouched_trans; [exact H1|]. apply register_task_untouched.
  - apply register_task_untouched.
Qed.

Lemma loadActiveSchedules_untouched (a : Completion (list Schedule)) (w : World) :
  actuators_untouched w (loadActiveSchedules a w).
Proof.
  destruct a as [l|e]; simpl.
  - apply untouched_fold. intros. apply addSchedule_untouched.
  - unfold actuators_untouched. simpl. tauto.
Qed.

Lemma loadActiveConditions_untouched (a : Completion (list Condition)) (w : World) :
  actuators_untouched w (loadActiveConditions a w).
Proof.
  destruct a as [l|e]; simpl.
  - apply untouched_fold. intros. apply addCondition_untouched.
  - unfold actuators_untouched. simpl. tauto.
Qed.

(** [init] commands no relay and arms or cancels no timeout. *)
Lemma init_untouched (a : StoreAnswer) (w : World) :
  actuators_untouched w (init cfg a w).
Proof.
  unfold init.
  eapply untouched_trans; [apply (loadActiveSchedules_untouched (ans_schedules a))|].
  eapply untouched_trans; [apply (loadActiveConditions_untouched (ans_conditions a))|].
  set (w2 := loadActiveConditions _ _).
  pose proof (startScheduledTasks_untouched w2) as H.
  destruct (startScheduledTasks cfg w2) as [[u|e] w3]; cbn [snd] in H;
    (eapply untouched_trans; [exact H|]);
    unfold actuators_untouched; simpl; tauto.
Qed.

Lemma task_stop_untouched (task : nat) (w : World) :
  actuators_untouched w (task_stop task w).
Proof. unfold actuators_untouched. simpl. tauto. Qed.

(** [stop] commands no relay and cancels no timeout. *)
Lemma stop_untouched (w : World) : actuators_untouched w (stop w).
Proof.
  unfold stop.
  eapply untouched_trans.
  - apply (untouched_fold (fun w (kt : TaskName * nat) => task_stop (snd kt) w)).
    intros. apply task_stop_untouched.
  - unfold actuators_untouched. simpl. tauto.
Qed.

(** *** The cron tasks that [stop] stops *)

Lemma task_running_task_update (b : bool) (k task : nat) (w : World) :
  task_running task (task_update b k w)
  = if decide (k = task)
    then (if cronTasks (node w) !! task is Some _ then b else false)
    else task_running task w.
Proof.
  unfold task_running, task_update. simpl.
  destruct (decide (k = task)) as [->|Hne].
  - rewrite list_lookup_alter_eq.
    destruct (cronTasks (node w) !! task); reflexivity.
  - rewrite list_lookup_alter_ne by exact Hne. reflexivity.
Qed.

Lemma stop_tasks_running (l : list (TaskName * nat)) (task : nat) :
  forall w,
    task_running task
      (fold_left (fun w (kt : TaskName * nat) => task_stop (snd kt) w) l w)
    = if decide (task ∈ l.*2) then false else task_running task w.
Proof.
  induction l as [|[name k] l IH]; intros w; simpl.
  - destruct (decide (task ∈ [])) as [Hin|_]; [inversion Hin | reflexivity].
  - rewrite IH. unfold task_stop. rewrite task_running_task_update.
    destruct (decide (task ∈ l.*2)) as [Hin|Hnin].
    + rewrite decide_True by (right; exact Hin). reflexivity.
    + destruct (decide (k = task)) as [->|Hne].
      * rewrite decide_True by left.
        destruct (cronTasks (node w) !! task); reflexivity.
      * rewrite decide_False; [reflexivity|].
        intros Hin. apply elem_of_cons in Hin as [->|Hin]; tauto.
Qed.

Lemma stop_task_running (task : nat) (w : World) :
  task_running task (stop w)
  = if decide (task ∈ (scheduledTasks (sched w)).*2) then false
    else task_running task w.
Proof.
  rewrite <- (stop_tasks_running (scheduledTasks (sched w)) task w).
  reflexivity.
Qed.

(** C3 (amended). [stop] stops every cron task held in [scheduledTasks]
    (the backup and log-cleanup triggers), empties the three maps and
    clears [isRunning]; it writes no pin and leaves the relay array and
    the relay-state table as they are; it cancels no pending
    deactivation: the timeouts armed before [stop] are still armed
    after it, and after a following [init]. *)
Theorem stop_effect (a : StoreAnswer) (w : World) :
  (forall name task,
      (name, task) ∈ scheduledTasks (sched w) -> task_running task (stop w) = false)
  /\ sched (stop w)
     = {| activeSchedules := []; activeConditions := [];
          scheduledTasks := []; isRunning := false |}
  /\ hw (stop w) = hw w
  /\ gpio (stop w) = gpio w
  /\ rele_states (db (stop w)) = rele_states (db w)
  /\ timeouts (node (stop w)) = timeouts (node w)
  /\ timeouts (node (init cfg a (stop w))) = timeouts (node w)
  /\ gpio (init cfg a (stop w)) = gpio w.
Proof.
  pose proof (stop_untouched w) as (S1 & S2 & S3 & S4 & S5 & S6).
  pose proof (init_untouched a (stop w)) as (I1 & I2 & I3 & I4 & I5 & I6).
  repeat split; try congruence.
  intros name task Hin. rewrite stop_task_running.
  rewrite decide_True; [reflexivity|].
  apply list_elem_of_fmap. exists (name, task). split; [reflexivity | exact Hin].
Qed.

(** ** Errors during [init] *)





(** ** A poll cycle without a sample *)

Lemma checkThresholds_sched (t h : float) (w : World) :
  sched (checkThresholds cfg t h w) = sched w.
Proof.
  unfold checkThresholds. destruct (_ || _); destruct (_ || _); reflexivity.
Qed.


(** The sensor class of the repository never answers null. When its read
    fails it writes the error with [console.error], hands out
    [DHT11.fallback], the last valid reading or 25.0 and 60.0, and keeps
    its state; within [minReadInterval] of a valid reading it hands out
    that reading without a read. The poll cycle evaluates every active
    condition on that answer. *)
Lemma failed_read_is_evaluated (raw : Completion (float * float)) (w : World)
    (sensor : DHT11.Sensor) :
  dht11 (gpio w) = Some sensor ->
  read_failed raw ->
  let t := fst (DHT11.fallback sensor) in
  let h := snd (DHT11.fallback sensor) in
  let w1 := with_gpio (fun g => {| releStates := releStates g; dht11 := Some sensor |})
              (match DHT11.read_error (now (node w)) raw sensor with
               | Some e => console_err (CeSensorRead e) w
               | None => w
               end) in
  dht11_read raw w
  = (Some {| rd_temperature := Some t; rd_humidity := Some h |}, w1)
  /\ poll cfg toFixed1 raw w
     = fold_left
         (fun w0 (kc : Z * Condition) =>
            evaluateCondition cfg (snd kc) (toFixed1 t) (toFixed1 h) w0)
         (activeConditions (sched w))
         (checkThresholds cfg (toFixed1 t) (toFixed1 h)
            (saveSensorReading (toFixed1 t) (toFixed1 h) w1)).
Proof.
  intros Hs Hfail. cbv zeta.
  assert (Hread : DHT11.read (now (node w)) raw sensor = (DHT11.fallback sensor, sensor)).
  { unfold DHT11.read, DHT11.fallback.
    destruct (now (node w) - DHT11.lastReadTime sensor <? DHT11.minReadInterval);
      destruct (DHT11.lastReading sensor) as [r|]; try reflexivity;
      destruct raw as [[t0 h0]|e]; simpl in Hfail; try rewrite Hfail; reflexivity. }
  assert (Hd : dht11_read raw w
               = (Some {| rd_temperature := Some (fst (DHT11.fallback sensor));
                          rd_humidity := Some (snd (DHT11.fallback sensor)) |},
                  with_gpio (fun g => {| releStates := releStates g;
                                         dht11 := Some sensor |})
                    (match DHT11.read_error (now (node w)) raw sensor with
                     | Some e => console_err (CeSensorRead e) w
                     | None => w
                     end))).
  { unfold dht11_read. rewrite Hs, Hread. reflexivity. }
  split; [exact Hd|].
  unfold poll. rewrite Hd. unfold checkConditions, readDHT11.
  destruct (DHT11.read_error (now (node w)) raw sensor); simpl;
    rewrite checkThresholds_sched; reflexivity.
Qed.


End Properties.

(** * The properties at concrete inputs *)

(** C1, as stated, fails. The condition of the specification's scenario
    (relay 2, 900 seconds) is executed for a sample at clock 0 and again
    for a sample at clock 60000: two deactivations are pending for relay 2,
    and the earlier one still switches the relay off at 900000 while the
    later one stays armed. *)
Lemma pending_deactivations_stack :
  pending_for 2 world_hot_twice
  = [ {| to_due := 900000; to_rele := 2; to_reason := condition_end_reason condition_hot |};
      {| to_due := 960000; to_rele := 2; to_reason := condition_end_reason condition_hot |} ]
  /\ ~ (length (pending_for 2 world_hot_twice) <= 1)%nat
  /\ releStates (gpio world_hot_twice) !! 1%nat = Some true
  /\ releStates (gpio (run_timers config_backup6 900000 world_hot_twice)) !! 1%nat
     = Some false
  /\ length (pending_for 2 (run_timers config_backup6 900000 world_hot_twice)) = 1%nat.
Proof.
  assert (H : pending_for 2 world_hot_twice
              = [ {| to_due := 900000; to_rele := 2;
                     to_reason := condition_end_reason condition_hot |};
                  {| to_due := 960000; to_rele := 2;
                     to_reason := condition_end_reason condition_hot |} ])
    by reflexivity.
  split; [exact H|]. split; [rewrite H; simpl; lia|].
  repeat split; reflexivity.
Qed.

(** The Monday schedule and the temperature condition, each run twice. *)
Lemma arming_stacks_witness :
  length (pending_for 1 (executeSchedule config_js schedule_monday
                           (executeSchedule config_js schedule_monday world_shipped)))
  = (length (pending_for 1 world_shipped) + 2)%nat
  /\ length (pending_for 2 (executeCondition config_js condition_hot 31.2%float
                              (executeCondition config_js condition_hot 31.2%float
                                 world_shipped)))
     = (length (pending_for 2 world_shipped) + 2)%nat.
Proof.
  destruct (arming_stacks config_js schedule_monday condition_hot 31.2%float
              world_shipped) as [Hs Hc].
  split.
  - apply Hs. simpl. lia.
  - apply Hc; simpl; [lia | reflexivity | lia].
Defined.

(** C2: the code at the failing input. With the store and configuration
    as shipped, [new Scheduler()] leaves one started trigger for schedule
    1, one [restart()] leaves two and a second [restart()] three, while
    the status reports one active schedule. On Monday 08:00 all of them
    fire: three relay commands and three pending deactivations for one
    occurrence after two restarts, two after one. With a schedulable
    backup hour the schedule triggers pile up in the same way, whereas the
    backup trigger, which [stop] does stop, stays single. *)
Theorem restart_duplicates_schedule_triggers :
  length (live_schedule_triggers 1 world_shipped) = 1%nat
  /\ length (live_schedule_triggers 1 world_restarted_once) = 2%nat
  /\ length (live_schedule_triggers 1 world_restarted_twice) = 3%nat
  /\ st_activeSchedules (getStatus world_restarted_twice) = 1
  /\ length (hw (cron_tick config_js monday_0800 world_restarted_twice)) = 3%nat
  /\ length (pending_for 1 (cron_tick config_js monday_0800 world_restarted_twice))
     = 3%nat
  /\ length (pending_for 1 (cron_tick config_js monday_0800 world_restarted_once))
     = 2%nat
  /\ length (live_schedule_triggers 1 world_running) = 1%nat
  /\ length (live_schedule_triggers 1 world_running_restarted_twice) = 3%nat
  /\ length (live_backup_triggers world_running) = 1%nat
  /\ length (live_backup_triggers world_running_restarted_twice) = 1%nat.
Proof. repeat split; reflexivity. Qed.

(** C3, as stated, fails. The Monday schedule has fired and its
    deactivation is pending; [stop] leaves it armed, and after the
    following [init] it fires at its due time and switches relay 1 off. *)
Lemma stop_keeps_pending_deactivation :
  timeouts (node world_monday_on)
  = [ {| to_due := 36000000; to_rele := 1;
         to_reason := ReasonScheduleEnd (s_start_time schedule_monday)
                        (s_end_time schedule_monday) |} ]
  /\ timeouts (node (stop world_monday_on)) = timeouts (node world_monday_on)
  /\ releStates (gpio (init config_backup6 store_one_schedule (stop world_monday_on)))
       !! 0%nat = Some true
  /\ releStates (gpio (run_timers config_backup6 36000000
                         (init config_backup6 store_one_schedule
                            (stop world_monday_on)))) !! 0%nat = Some false
  /\ last (rele_states (db (run_timers config_backup6 36000000
                              (init config_backup6 store_one_schedule
                                 (stop world_monday_on)))))
     = Some {| rs_rele_id := 1; rs_state := false;
               rs_reason := ReasonScheduleEnd (s_start_time schedule_monday)
                              (s_end_time schedule_monday) |}.
Proof. repeat split; reflexivity. Qed.

(** The backup trigger of a running scheduler is stopped by [stop]. *)
Lemma stop_effect_witness :
  (TnBackup, 1%nat) ∈ scheduledTasks (sched world_running)
  /\ task_running 1 world_running = true
  /\ task_running 1 (stop world_running) = false.
Proof.
  assert (Hin : (TnBackup, 1%nat) ∈ scheduledTasks (sched world_running)).
  { change (scheduledTasks (sched world_running))
      with [(TnBackup, 1%nat); (TnLogCleanup, 2%nat)]. left. }
  split; [exact Hin|]. split; [reflexivity|].
  destruct (stop_effect config_backup6 store_one_schedule world_running) as [H _].
  exact (H TnBackup 1%nat Hin).
Defined.

(** C4, as stated, fails. For the schedule from 08:00 to 08:00 (T2<=T1)
    the code computes 0 seconds, the specification's formula 24 hours. *)
Lemma equal_times_give_zero :
  seconds_of (s_end_time schedule_same) <= seconds_of (s_start_time schedule_same)
  /\ schedule_duration schedule_same = Some 0
  /\ spec_duration (seconds_of (s_start_time schedule_same))
       (seconds_of (s_end_time schedule_same)) = 86400
  /\ schedule_duration schedule_same
     <> Some (spec_duration (seconds_of (s_start_time schedule_same))
                (seconds_of (s_end_time schedule_same))).
Proof.
  split; [vm_compute; discriminate|].
  split; [reflexivity|]. split; [reflexivity|].
  vm_compute. discriminate.
Qed.

(** 08:00 to 18:00 is ten hours. *)
Lemma schedule_duration_wraps_witness :
  valid_time (s_start_time schedule_monday)
  /\ valid_time (s_end_time schedule_monday)
  /\ schedule_duration schedule_monday = Some 36000.
Proof.
  assert (H1 : valid_time (s_start_time schedule_monday))
    by (unfold valid_time; simpl; lia).
  assert (H2 : valid_time (s_end_time schedule_monday))
    by (unfold valid_time; simpl; lia).
  split; [exact H1|]. split; [exact H2|].
  destruct (schedule_duration_wraps config_js schedule_monday world_shipped H1 H2)
    as (_ & H & _).
  exact H.
Defined.


(** A schedule that starts at 24:00 creates no cron task. *)
Lemma addSchedule_rejects_invalid_start_witness :
  hh (s_start_time schedule_hour24) > 23
  /\ cronTasks (node (addSchedule schedule_hour24 world_running))
     = cronTasks (node world_running).
Proof.
  assert (H : hh (s_start_time schedule_hour24) > 23) by (simpl; lia).
  split; [exact H|].
  destruct (addSchedule_rejects_invalid_start schedule_hour24 world_running)
    as (_ & Hc & _); [right; left; exact H | exact Hc].
Defined.

(** C7, as stated, fails. Relay 1 is commanded on while the write of
    its pin throws: [rpio.write] was called, and no row is appended to
    the relay-state table; the failure is only in the system log, at
    level error. Relay 5 is commanded: no write, no entry at all. *)
Lemma failed_write_leaves_no_transition_row :
  hw (snd (controlRele config_js 1 true ReasonManual (world_new env_faulty)))
  = [ {| rw_pin := Some 2; rw_level := LOW; rw_threw := true |} ]
  /\ rele_states (db (world_new env_faulty)) = []
  /\ rele_states (db (snd (controlRele config_js 1 true ReasonManual
                             (world_new env_faulty)))) = []
  /\ system_logs (db (snd (controlRele config_js 1 true ReasonManual
                             (world_new env_faulty))))
     = [ {| le_level := LvlError; le_message := MsgReleError 1 (ErrRpioWrite (Some 2));
            le_source := SrcGPIOController |} ]
  /\ controlRele config_js 5 true ReasonManual (world_new env_ok)
     = (Threw ErrInvalidReleId, world_new env_ok)
  /\ hw (world_new env_ok) = []
  /\ system_logs (db (world_new env_ok)) = []
  /\ rele_states (db (world_new env_ok)) = [].
Proof. repeat split; reflexivity. Qed.

(** Relay 1 with a working and with a failing pin. *)
Lemma controlRele_transition_witness :
  1 <= 1 <= 4
  /\ rele_states (db (snd (controlRele config_js 1 true ReasonManual
                             (world_new env_ok))))
     = [ {| rs_rele_id := 1; rs_state := true; rs_reason := ReasonManual |} ]
  /\ fst (controlRele config_js 1 true ReasonManual (world_new env_ok))
     = Returned true
  /\ fst (controlRele config_js 1 true ReasonManual (world_new env_faulty))
     = Returned false
  /\ releStates (gpio (snd (controlRele config_js 1 true ReasonManual
                              (world_new env_faulty))))
     = [false; false; false; false].
Proof.
  assert (H : 1 <= 1 <= 4) by lia.
  split; [exact H|].
  destruct (controlRele_transition config_js 1 true ReasonManual (world_new env_ok))
    as [Hok _].
  destruct (controlRele_transition config_js 1 true ReasonManual (world_new env_faulty))
    as [Hbad _].
  destruct (Hok H) as (_ & Hr & _ & Hrows & _).
  destruct (Hbad H) as (_ & Hr' & Hst & _).
  split; [exact Hrows|]. split; [exact Hr|]. split; [exact Hr'|]. exact Hst.
Defined.



(** The condition with operator '==' and threshold 25.0. *)
Lemma eq_operator_tolerance_witness :
  c_operator condition_eq25 = OpEq
  /\ c_threshold_value condition_eq25 = 25.0%float
  /\ shouldActivate (c_operator condition_eq25) 25.4%float
       (c_threshold_value condition_eq25) = Some true
  /\ shouldActivate (c_operator condition_eq25) 25.6%float
       (c_threshold_value condition_eq25) = Some false.
Proof.
  assert (H1 : c_operator condition_eq25 = OpEq) by reflexivity.
  assert (H2 : c_threshold_value condition_eq25 = 25.0%float) by reflexivity.
  split; [exact H1|]. split; [exact H2|].
  destruct (eq_operator_tolerance config_js condition_eq25 25.4%float 60%float
              world_shipped H1 H2) as (_ & Ht & Hf & _).
  split; [exact Ht | exact Hf].
Defined.

(** The integer id 5 is rejected; relays 1 and 2 are read after the
    Monday schedule has fired. *)
Lemma relay_id_guard_witness :
  (5 < 1 \/ 5 > 4)
  /\ controlRele config_js 5 true ReasonManual world_shipped
     = (Threw ErrInvalidReleId, world_shipped)
  /\ 1 <= 2 <= 4
  /\ getReleState 2 world_monday_on = Returned (Some false)
  /\ getReleState 1 world_monday_on = Returned (Some true).
Proof.
  assert (H5 : 5 < 1 \/ 5 > 4) by (right; lia).
  assert (H2 : 1 <= 2 <= 4) by lia.
  assert (H1 : 1 <= 1 <= 4) by lia.
  split; [exact H5|]. split.
  - destruct (relay_id_guard config_js 5 true ReasonManual world_shipped) as [H _].
    exact (proj1 (H H5)).
  - split; [exact H2|]. split.
    + destruct (relay_id_guard config_js 2 true ReasonManual world_monday_on) as [_ H].
      rewrite (H H2). reflexivity.
    + destruct (relay_id_guard config_js 1 true ReasonManual world_monday_on) as [_ H].
      rewrite (H H1). reflexivity.
Defined.

(** * Further properties of the relay methods *)

Section RelayProperties.

Variable cfg : Config.

Lemma level_for_eq (state : bool) :
  (if releActiveLow cfg
   then (if state then LOW else HIGH)
   else (if state then HIGH else LOW)) = level_for cfg state.
Proof. unfold level_for. destruct (releActiveLow cfg), state; reflexivity. Qed.

(** [controlRele] on a relay id in 1..4, by the outcome of the write. *)
Lemma controlRele_valid_eq (releId : Z) (state : bool) (reason : Reason) (w : World) :
  1 <= releId <= 4 ->
  controlRele cfg releId state reason w
  = if write_fails cfg releId w
    then (Returned false,
          saveSystemLog LvlError
            (MsgReleError releId (ErrRpioWrite (pin_of cfg releId))) SrcGPIOController
            (console_err (CeControlRele releId (ErrRpioWrite (pin_of cfg releId)))
               (rpio_write (pin_of cfg releId) (level_for cfg state) true w)))
    else (Returned true,
          saveSystemLog LvlInfo (MsgRele releId state reason) SrcGPIOController
            (saveReleState releId state reason
               (set_rele (Z.to_nat (releId - 1)) state
                  (rpio_write (pin_of cfg releId) (level_for cfg state) false w)))).
Proof.
  intros H. unfold controlRele, write_fails, pin_of.
  rewrite (range_guard_false _ H), level_for_eq. reflexivity.
Qed.


Lemma getReleState_valid (releId : Z) (w : World) :
  1 <= releId <= 4 ->
  getReleState releId w = Returned (releStates (gpio w) !! Z.to_nat (releId - 1)).
Proof. intros H. unfold getReleState. rewrite (range_guard_false _ H). reflexivity. Qed.


(** What a call on a relay id in 1..4 leaves in the relay array and in
    the environment. *)
Lemma controlRele_valid_state (releId : Z) (state : bool) (reason : Reason) (w : World) :
  1 <= releId <= 4 ->
  env (snd (controlRele cfg releId state reason w)) = env w
  /\ releStates (gpio (snd (controlRele cfg releId state reason w)))
     = (if write_fails cfg releId w then releStates (gpio w)
        else <[Z.to_nat (releId - 1) := state]> (releStates (gpio w)))
  /\ fst (controlRele cfg releId state reason w)
     = Returned (negb (write_fails cfg releId w)).
Proof.
  intros H. rewrite (controlRele_valid_eq _ _ _ _ H).
  destruct (write_fails cfg releId w); simpl; auto.
Qed.

Lemma controlRele_readback (releId j : Z) (state : bool) (reason : Reason)
    (w : World) :
  1 <= releId <= 4 ->
  length (releStates (gpio w)) = 4%nat ->
  let w' := snd (controlRele cfg releId state reason w) in
  length (releStates (gpio w')) = 4%nat
  /\ getReleState releId w'
     = (if write_fails cfg releId w then getReleState releId w
        else Returned (Some state))
  /\ (j <> releId -> getReleState j w' = getReleState j w).
Proof.
  intros H Hlen. cbv zeta.
  destruct (controlRele_valid_state releId state reason w H) as (_ & Hst & _).
  split; [|split].
  - rewrite Hst. destruct (write_fails cfg releId w); [exact Hlen|].
    rewrite length_insert. exact Hlen.
  - rewrite !(getReleState_valid releId) by exact H. rewrite Hst.
    destruct (write_fails cfg releId w); [reflexivity|].
    rewrite list_lookup_insert_eq; [reflexivity | lia].
  - intros Hne. unfold getReleState.
    destruct ((j <? 1) || (j >? 4)) eqn:Hj; [reflexivity|].
    apply orb_false_iff in Hj as [Hj1 Hj2].
    rewrite Hst. destruct (write_fails cfg releId w); [reflexivity|].
    rewrite list_lookup_insert_ne; [reflexivity | lia].
Qed.

(** X1. Writing a relay and reading it back: after [controlRele] on a
    relay id in 1..4 of the four-element array, [getReleState] of that
    relay returns the commanded state when the pin write went through and
    the previous state when it threw; every other relay reads as before,
    and the array still has four elements. *)
Theorem controlRele_then_getReleState (releId j : Z) (state : bool) (reason : Reason)
    (w : World) :
  1 <= releId <= 4 ->
  length (releStates (gpio w)) = 4%nat ->
  let w' := snd (controlRele cfg releId state reason w) in
  length (releStates (gpio w')) = 4%nat
  /\ getReleState releId w'
     = (if write_fails cfg releId w then getReleState releId w
        else Returned (Some state))
  /\ (j <> releId -> getReleState j w' = getReleState j w).
Proof. exact (controlRele_readback releId j state reason w). Qed.

(** X2. Which pin and which level: on a relay id in 1..4, [controlRele]
    makes one write, to the pin configured for that relay, with level
    LOW exactly when the commanded state equals [releActiveLow] (so an
    active-low relay is switched on with LOW and off with HIGH). *)
Theorem controlRele_pin_and_level (releId : Z) (state : bool) (reason : Reason)
    (w : World) :
  1 <= releId <= 4 ->
  hw (snd (controlRele cfg releId state reason w))
  = hw w ++
      [ {| rw_pin := relePins cfg !! Z.to_nat (releId - 1);
           rw_level := (if Bool.eqb state (releActiveLow cfg) then LOW else HIGH);
           rw_threw := rpio_write_throws (env w)
                         (relePins cfg !! Z.to_nat (releId - 1)) |} ].
Proof.
  intros H. rewrite (controlRele_valid_eq _ _ _ _ H).
  unfold write_fails, pin_of, level_for.
  destruct (rpio_write_throws _ _); reflexivity.
Qed.


(** *** The loops over the four relays *)

Lemma controlRele_each_effect (state : bool) (reason : Reason) (ids : list Z) :
  Forall (fun i => 1 <= i <= 4) ids ->
  forall w,
    fst (controlRele_each cfg ids state reason w) = Returned tt
    /\ env (snd (controlRele_each cfg ids state reason w)) = env w
    /\ hw (snd (controlRele_each cfg ids state reason w))
       = hw w ++ map (fun i => {| rw_pin := pin_of cfg i;
                                  rw_level := level_for cfg state;
                                  rw_threw := write_fails cfg i w |}) ids
    /\ (pins_work w ->
        releStates (gpio (snd (controlRele_each cfg ids state reason w)))
        = fold_left (fun l i => <[Z.to_nat (i - 1) := state]> l) ids
            (releStates (gpio w))).
Proof.
  induction 1 as [|i ids Hi _ IH]; intros w; simpl.
  - rewrite app_nil_r. auto.
  - rewrite (controlRele_valid_eq _ _ _ _ Hi).
    destruct (write_fails cfg i w) eqn:Hf.
    + destruct (IH (saveSystemLog LvlError
                      (MsgReleError i (ErrRpioWrite (pin_of cfg i))) SrcGPIOController
                      (console_err (CeControlRele i (ErrRpioWrite (pin_of cfg i)))
                         (rpio_write (pin_of cfg i) (level_for cfg state) true w))))
        as (I1 & I2 & I3 & I4).
      repeat split; [exact I1 | exact I2 | |].
      * rewrite I3. simpl. rewrite <- app_assoc. reflexivity.
      * intros Hp. unfold write_fails in Hf. rewrite Hp in Hf. discriminate.
    + destruct (IH (saveSystemLog LvlInfo (MsgRele i state reason) SrcGPIOController
                      (saveReleState i state reason
                         (set_rele (Z.to_nat (i - 1)) state
                            (rpio_write (pin_of cfg i) (level_for cfg state) false w)))))
        as (I1 & I2 & I3 & I4).
      repeat split; [exact I1 | exact I2 | |].
      * rewrite I3. simpl. rewrite <- app_assoc. reflexivity.
      * intros Hp. rewrite I4; [reflexivity | exact Hp].
Qed.

(** X4. [activateAllRele] and [deactivateAllRele] go through relays 1 to
    4 in order and make one write attempt for each, on its own pin,
    whether or not an earlier write threw; they do not throw. When every
    write goes through, all four relays of the array hold the commanded
    state afterwards. *)
Theorem all_rele_loops (state : bool) (reason : Reason) (w : World) :
  let run := if state then activateAllRele cfg reason else deactivateAllRele cfg reason in
  fst (run w) = Returned tt
  /\ hw (snd (run w))
     = hw w ++ map (fun i => {| rw_pin := relePins cfg !! Z.to_nat (i - 1);
                                rw_level := level_for cfg state;
                                rw_threw := rpio_write_throws (env w)
                                              (relePins cfg !! Z.to_nat (i - 1)) |})
                [1; 2; 3; 4]
  /\ (pins_work w -> length (releStates (gpio w)) = 4%nat ->
      releStates (gpio (snd (run w))) = [state; state; state; state]).
Proof.
  assert (Hids : Forall (fun i => 1 <= i <= 4) [1; 2; 3; 4])
    by (repeat constructor; lia).
  destruct (controlRele_each_effect state reason [1; 2; 3; 4] Hids w)
    as (H1 & _ & H3 & H4).
  assert (Hrun : (if state then activateAllRele cfg reason
                  else deactivateAllRele cfg reason) w
                 = controlRele_each cfg [1; 2; 3; 4] state reason w)
    by (destruct state; reflexivity).
  cbv zeta. rewrite Hrun.
  split; [exact H1|]. split; [exact H3|].
  intros Hp Hlen. rewrite (H4 Hp).
  destruct (releStates (gpio w)) as [|a [|b [|c [|d [|e l]]]]]; try discriminate.
  reflexivity.
Qed.

(** *** Timeouts that fire *)

Lemma fire_timeout_frame (x : Timeout) (w : World) :
  env (fire_timeout cfg x w) = env w
  /\ timeouts (node (fire_timeout cfg x w)) = timeouts (node w)
  /\ now (node (fire_timeout cfg x w)) = now (node w)
  /\ length (releStates (gpio (fire_timeout cfg x w))) = length (releStates (gpio w))
  /\ (forall i, releStates (gpio w) !! i = Some false ->
                releStates (gpio (fire_timeout cfg x w)) !! i = Some false).
Proof.
  unfold fire_timeout, controlRele.
  destruct ((to_rele x <? 1) || (to_rele x >? 4)); simpl; [auto 10|].
  destruct (rpio_write_throws _ _); simpl; [auto 10|].
  repeat split; [apply length_insert|].
  intros i Hi. destruct (decide (Z.to_nat (to_rele x - 1) = i)) as [->|Hne].
  - rewrite list_lookup_insert_eq; [reflexivity|]. eapply lookup_lt_Some, Hi.
  - rewrite list_lookup_insert_ne by exact Hne. exact Hi.
Qed.

Lemma fire_timeout_off (x : Timeout) (w : World) :
  1 <= to_rele x <= 4 -> pins_work w -> length (releStates (gpio w)) = 4%nat ->
  releStates (gpio (fire_timeout cfg x w)) !! Z.to_nat (to_rele x - 1) = Some false
  /\ uncaught (node (fire_timeout cfg x w)) = uncaught (node w).
Proof.
  intros H Hp Hlen. unfold fire_timeout.
  rewrite (controlRele_valid_eq _ _ _ _ H). unfold write_fails. rewrite Hp. simpl.
  split; [|reflexivity]. rewrite list_lookup_insert_eq; [reflexivity | lia].
Qed.

Lemma fold_fire_frame (l : list Timeout) (w : World) :
  env (fold_left (fun w x => fire_timeout cfg x w) l w) = env w
  /\ timeouts (node (fold_left (fun w x => fire_timeout cfg x w) l w))
     = timeouts (node w)
  /\ now (node (fold_left (fun w x => fire_timeout cfg x w) l w)) = now (node w)
  /\ length (releStates (gpio (fold_left (fun w x => fire_timeout cfg x w) l w)))
     = length (releStates (gpio w)).
Proof.
  apply (fold_left_invariant (fun w x => fire_timeout cfg x w)
           (fun w' => env w' = env w /\ timeouts (node w') = timeouts (node w)
                      /\ now (node w') = now (node w)
                      /\ length (releStates (gpio w')) = length (releStates (gpio w)))).
  - intros a b (A1 & A2 & A3 & A4).
    destruct (fire_timeout_frame b a) as (B1 & B2 & B3 & B4 & _).
    repeat split; congruence.
  - auto.
Qed.

Lemma fold_fire_off (l : list Timeout) :
  forall w x,
    pins_work w -> length (releStates (gpio w)) = 4%nat ->
    x ∈ l -> 1 <= to_rele x <= 4 ->
    releStates (gpio (fold_left (fun w x => fire_timeout cfg x w) l w))
      !! Z.to_nat (to_rele x - 1) = Some false.
Proof.
  induction l as [|y l IH]; intros w x Hp Hlen Hin Hv; [inversion Hin|].
  simpl. destruct (fire_timeout_frame y w) as (F1 & _ & _ & F4 & _).
  apply elem_of_cons in Hin as [->|Hin].
  - apply (fold_left_invariant (fun w x => fire_timeout cfg x w)
             (fun w' => releStates (gpio w') !! Z.to_nat (to_rele y - 1) = Some false)).
    + intros a b Ha. apply (fire_timeout_frame b a), Ha.
    + apply fire_timeout_off; assumption.
  - apply IH; try assumption.
    + unfold pins_work. rewrite F1. exact Hp.
    + rewrite F4. exact Hlen.
Qed.

Lemma elem_of_insert_by_due (x t : Timeout) (l : list Timeout) :
  x ∈ insert_by_due t l <-> x = t \/ x ∈ l.
Proof.
  induction l as [|y l IH]; simpl.
  - rewrite list_elem_of_singleton. split; [auto|].
    intros [H|H]; [exact H | inversion H].
  - destruct (to_due t <? to_due y).
    + rewrite elem_of_cons. reflexivity.
    + rewrite !elem_of_cons, IH. tauto.
Qed.

Lemma elem_of_by_due (x : Timeout) (l : list Timeout) :
  x ∈ by_due l <-> x ∈ l.
Proof.
  unfold by_due.
  assert (H : forall acc,
             x ∈ fold_left (fun acc t => insert_by_due t acc) l acc
             <-> x ∈ l \/ x ∈ acc).
  { induction l as [|y l IH]; intros acc; simpl.
    - split; [auto|]. intros [H|H]; [inversion H | exact H].
    - rewrite IH, elem_of_insert_by_due, elem_of_cons. tauto. }
  rewrite H. split; [|auto]. intros [Hx|Hx]; [exact Hx | inversion Hx].
Qed.

Lemma run_timers_effect (t : Z) (x : Timeout) (w : World) :
  now (node (run_timers cfg t w)) = t
  /\ timeouts (node (run_timers cfg t w))
     = filter (fun y => is_due t y = false) (timeouts (node w))
  /\ (x ∈ timeouts (node w) -> to_due x <= t -> 1 <= to_rele x <= 4 ->
      pins_work w -> length (releStates (gpio w)) = 4%nat ->
      getReleState (to_rele x) (run_timers cfg t w) = Returned (Some false)).
Proof.
  unfold run_timers.
  set (due := by_due (filter (fun y => is_due t y = true) (timeouts (node w)))).
  set (w0 := with_node _ w).
  destruct (fold_fire_frame due w0) as (_ & F2 & F3 & _).
  split; [exact F3|]. split; [exact F2|].
  intros Hin Hdue Hv Hp Hlen.
  rewrite (getReleState_valid _ _ Hv). f_equal.
  apply fold_fire_off; try assumption.
  unfold due. apply elem_of_by_due, list_elem_of_filter. split; [|exact Hin].
  unfold is_due. lia.
Qed.

(** X5. When the clock advances to [t], every timeout due by then leaves
    the list of pending timeouts and the others stay; with working pins
    and the four-element relay array, the relay of every due timeout
    with an id in 1..4 is off afterwards. *)
Theorem run_timers_switches_off (t : Z) (x : Timeout) (w : World) :
  now (node (run_timers cfg t w)) = t
  /\ timeouts (node (run_timers cfg t w))
     = filter (fun y => is_due t y = false) (timeouts (node w))
  /\ (x ∈ timeouts (node w) -> to_due x <= t -> 1 <= to_rele x <= 4 ->
      pins_work w -> length (releStates (gpio w)) = 4%nat ->
      getReleState (to_rele x) (run_timers cfg t w) = Returned (Some false)).
Proof. exact (run_timers_effect t x w). Qed.

(** *** Timed activation *)

Lemma timer_delay_range (ms : option Z) : 1 <= timer_delay ms <= TIMEOUT_MAX.
Proof.
  unfold timer_delay, TIMEOUT_MAX. destruct ms as [n|]; [|lia].
  destruct (Z.leb_spec 1 n); destruct (Z.leb_spec n 2147483647); simpl; lia.
Qed.

Lemma timer_delay_clamped (n : Z) :
  n < 1 \/ n > TIMEOUT_MAX -> timer_delay (Some n) = 1.
Proof.
  unfold timer_delay, TIMEOUT_MAX. intros H.
  destruct (Z.leb_spec 1 n); destruct (Z.leb_spec n 2147483647); simpl; lia.
Qed.

(** On a relay id in 1..4 [activateReleTimed] returns, arms one timeout
    and leaves the relay array as its [controlRele] call left it. *)
Lemma activateReleTimed_arms (releId duration : Z) (reason : string) (w : World) :
  1 <= releId <= 4 ->
  let w1 := snd (activateReleTimed cfg releId duration reason w) in
  fst (activateReleTimed cfg releId duration reason w) = Returned tt
  /\ timeouts (node w1)
     = timeouts (node w) ++
         [ {| to_due := now (node w) + timer_delay (Some (duration * 1000));
              to_rele := releId;
              to_reason := ReasonText
                (String.append reason " - Desactivación automática") |} ]
  /\ env w1 = env w
  /\ releStates (gpio w1)
     = (if write_fails cfg releId w then releStates (gpio w)
        else <[Z.to_nat (releId - 1) := true]> (releStates (gpio w))).
Proof.
  intros H. cbv zeta. unfold activateReleTimed.
  rewrite (range_guard_false _ H), (controlRele_valid_eq _ _ _ _ H).
  destruct (write_fails cfg releId w); simpl; auto.
Qed.


(** X7. A delay that Node cannot keep is replaced by one millisecond: on
    a relay id in 1..4, [activateReleTimed] with a duration that is not
    positive or is above 2147483 seconds arms the deactivation one
    millisecond after the call. *)
Theorem activateReleTimed_delay_clamped (releId duration : Z) (reason : string)
    (w : World) :
  1 <= releId <= 4 ->
  duration <= 0 \/ duration > 2147483 ->
  last (timeouts (node (snd (activateReleTimed cfg releId duration reason w))))
  = Some {| to_due := now (node w) + 1; to_rele := releId;
            to_reason := ReasonText
              (String.append reason " - Desactivación automática") |}.
Proof.
  intros H Hd.
  destruct (activateReleTimed_arms releId duration reason w H) as (_ & Hto & _).
  rewrite Hto, last_snoc.
  rewrite timer_delay_clamped; [reflexivity|]. unfold TIMEOUT_MAX. lia.
Qed.

(** *** Reading all relays *)

(** X8. [getAllReleStates] lists the relay array in order: for a relay
    id in 1..4 of the four-element array, entry [releId - 1] carries that
    id, the state [getReleState] returns for it, and the pin configured
    for it; the list is as long as the array. *)
Theorem getAllReleStates_agrees (releId : Z) (w : World) :
  1 <= releId <= 4 ->
  length (releStates (gpio w)) = 4%nat ->
  length (getAllReleStates cfg w) = 4%nat
  /\ exists b,
      getReleState releId w = Returned (Some b)
      /\ getAllReleStates cfg w !! Z.to_nat (releId - 1)
         = Some {| ri_releId := releId; ri_state := b;
                   ri_gpioPin := relePins cfg !! Z.to_nat (releId - 1) |}.
Proof.
  intros H Hlen. unfold getAllReleStates. rewrite length_imap. split; [exact Hlen|].
  destruct (lookup_lt_is_Some_2 (releStates (gpio w)) (Z.to_nat (releId - 1)))
    as [b Hb]; [lia|].
  exists b. rewrite (getReleState_valid _ _ H), list_lookup_imap, Hb. simpl.
  split; [reflexivity|]. do 2 f_equal. lia.
Qed.

End RelayProperties.

(** * Further properties of the sensor object and of the scheduler *)

(** X10. The sensor object hands out only readings that pass
    [isValidReading]: if the reading it keeps (when it keeps one) is
    valid, then whatever the read attempt produced, the answer of
    [read] is valid and so is the reading kept afterwards. *)
Theorem DHT11_read_valid (date_now : Z) (raw : Completion (float * float))
    (s : DHT11.Sensor) :
  sensor_ok s ->
  DHT11.isValidReading (fst (fst (DHT11.read date_now raw s)))
    (snd (fst (DHT11.read date_now raw s))) = true
  /\ sensor_ok (snd (DHT11.read date_now raw s)).
Proof.
  unfold sensor_ok. intros Hok.
  assert (Hfb : DHT11.isValidReading (fst (DHT11.fallback s)) (snd (DHT11.fallback s))
                = true).
  { unfold DHT11.fallback. destruct (DHT11.lastReading s) as [[t h]|];
      [exact Hok | reflexivity]. }
  unfold DHT11.read.
  destruct (date_now - DHT11.lastReadTime s <? DHT11.minReadInterval).
  - destruct (DHT11.lastReading s) as [[t h]|] eqn:Hl.
    + simpl. rewrite Hl. auto.
    + destruct raw as [[t h]|e]; [|simpl; rewrite Hl; auto].
      destruct (DHT11.isValidReading t h) eqn:Hv; simpl; [auto|].
      rewrite Hl. auto.
  - destruct raw as [[t h]|e]; [|simpl; split; [exact Hfb | exact Hok]].
    destruct (DHT11.isValidReading t h) eqn:Hv; simpl; [auto|].
    split; [exact Hfb | exact Hok].
Qed.

(** X11. The sensor is sampled at most once in two seconds: after a read
    at [t1] that took a fresh valid sample, a read less than 2000 ms later
    answers with that same sample and leaves the sensor object as it
    is, whatever the second attempt would have produced. *)
Theorem DHT11_read_cached (t1 t2 : Z) (temperature humidity : float)
    (raw2 : Completion (float * float)) (s : DHT11.Sensor) :
  DHT11.isValidReading temperature humidity = true ->
  DHT11.lastReading s = None \/ t1 - DHT11.lastReadTime s >= DHT11.minReadInterval ->
  t2 - t1 < DHT11.minReadInterval ->
  let s1 := snd (DHT11.read t1 (Returned (temperature, humidity)) s) in
  fst (DHT11.read t1 (Returned (temperature, humidity)) s) = (temperature, humidity)
  /\ DHT11.read t2 raw2 s1 = ((temperature, humidity), s1).
Proof.
  intros Hv Hfresh Hlt. cbv zeta.
  assert (H1 : DHT11.read t1 (Returned (temperature, humidity)) s
               = ((temperature, humidity),
                  {| DHT11.lastReading := Some (temperature, humidity);
                     DHT11.lastReadTime := t1;
                     DHT11.simulationMode := DHT11.simulationMode s |})).
  { unfold DHT11.read. rewrite Hv.
    destruct Hfresh as [Hn|Hge].
    - rewrite Hn. destruct (_ <? _); reflexivity.
    - replace (t1 - DHT11.lastReadTime s <? DHT11.minReadInterval) with false
        by (symmetry; apply Z.ltb_ge; lia).
      reflexivity. }
  rewrite H1. simpl. split; [reflexivity|].
  unfold DHT11.read. simpl.
  replace (t2 - t1 <? DHT11.minReadInterval) with true
    by (symmetry; apply Z.ltb_lt; exact Hlt).
  reflexivity.
Qed.

Section SchedulerProperties.

Variable cfg : Config.
Variable toFixed1 : float -> float.

(** *** Edge cases of the two executors *)


Lemma executeCondition_deactivate_eq (c : Condition) (v : float) (w : World) :
  c_action c = ActDeactivate ->
  1 <= c_rele_id c <= 4 ->
  executeCondition cfg c v w
  = condition_done c (snd (controlRele cfg (c_rele_id c) false (condition_reason c) w)).
Proof.
  intros Ha H. unfold executeCondition. rewrite Ha.
  rewrite (controlRele_valid_eq cfg _ _ _ _ H).
  destruct (write_fails cfg (c_rele_id c) w); reflexivity.
Qed.

(** X13. [executeCondition] with action deactivate arms no timeout and
    cancels none: the pending timeouts, among them any pending
    deactivation of the same relay, are as before. With working pins and
    the four-element array the relay reads off afterwards. *)
Theorem executeCondition_deactivate (c : Condition) (v : float) (w : World) :
  c_action c = ActDeactivate ->
  timeouts (node (executeCondition cfg c v w)) = timeouts (node w)
  /\ (1 <= c_rele_id c <= 4 -> pins_work w ->
      length (releStates (gpio w)) = 4%nat ->
      getReleState (c_rele_id c) (executeCondition cfg c v w) = Returned (Some false)).
Proof.
  intros Ha. split.
  - unfold executeCondition. rewrite Ha. unfold controlRele.
    destruct ((c_rele_id c <? 1) || (c_rele_id c >? 4)); simpl; [reflexivity|].
    destruct (rpio_write_throws _ _); reflexivity.
  - intros H Hp Hlen. rewrite (executeCondition_deactivate_eq c v w Ha H).
    rewrite (controlRele_valid_eq cfg _ _ _ _ H).
    unfold write_fails. rewrite Hp. simpl.
    rewrite (getReleState_valid _ _ H). simpl.
    rewrite list_lookup_insert_eq; [reflexivity | lia].
Qed.

(** X14. A hold duration above 2147483 seconds does not fit a Node timer:
    [executeCondition] with action activate on a relay id in 1..4 then
    arms the deactivation one millisecond after the call. *)
Theorem executeCondition_long_hold (c : Condition) (v : float) (w : World) :
  1 <= c_rele_id c <= 4 ->
  c_action c = ActActivate ->
  c_duration c > 2147483 ->
  last (timeouts (node (executeCondition cfg c v w)))
  = Some {| to_due := now (node w) + 1; to_rele := c_rele_id c;
            to_reason := condition_end_reason c |}.
Proof.
  intros H Ha Hd.
  rewrite (executeCondition_arms cfg c v w H Ha) by lia.
  rewrite last_snoc, timer_delay_clamped; [reflexivity|].
  unfold TIMEOUT_MAX. lia.
Qed.

(** X15. For a schedule with valid start and end times on a relay id in
    1..4, the deactivation armed by [executeSchedule] is due after the
    call and less than 24 hours after it. *)
Theorem executeSchedule_off_within_a_day (s : Schedule) (w : World) :
  valid_time (s_start_time s) ->
  valid_time (s_end_time s) ->
  1 <= s_rele_id s <= 4 ->
  exists x,
    last (timeouts (node (executeSchedule cfg s w))) = Some x
    /\ to_rele x = s_rele_id s
    /\ now (node w) < to_due x < now (node w) + 24 * 3600 * 1000.
Proof.
  intros H1 H2 Hr. eexists.
  rewrite (executeSchedule_arms cfg s w Hr), last_snoc.
  split; [reflexivity|]. split; [reflexivity|]. simpl to_due.
  rewrite (schedule_duration_valid s H1 H2). simpl option_map.
  pose proof (Z.mod_pos_bound
                (seconds_of (s_end_time s) - seconds_of (s_start_time s))
                (24 * 3600) ltac:(lia)) as Hm.
  set (d := (seconds_of (s_end_time s) - seconds_of (s_start_time s)) mod (24 * 3600))
    in *.
  unfold timer_delay, TIMEOUT_MAX.
  destruct (Z.leb_spec 1 (d * 1000)); destruct (Z.leb_spec (d * 1000) 2147483647);
    simpl; lia.
Qed.

(** *** Pending timeouts are for existing relays *)












(** *** Registration of the rules *)

Lemma addSchedule_cronTasks (s : Schedule) (w : World) :
  cronTasks (node (addSchedule s w))
  = cronTasks (node w) ++
      (if cron_ok (createCronExpression s) then [schedule_task s] else [])
  /\ console_error (node (addSchedule s w))
     = console_error (node w) ++
         (if cron_validate (createCronExpression s) is Some e
          then [CeAddSchedule (s_id s) e] else []).
Proof.
  unfold addSchedule, cron_schedule, cron_ok.
  destruct (cron_validate (createCronExpression s)); simpl.
  - rewrite app_nil_r. auto.
  - rewrite app_nil_r. split; [|reflexivity].
    rewrite alter_app_r_alt by lia. rewrite Nat.sub_diag. reflexivity.
Qed.

(** For a week day in 0..7 the pattern of a schedule is accepted exactly
    when its start minute and hour are in range. *)
Lemma cron_ok_start_in_range (s : Schedule) :
  0 <= s_day_of_week s <= 7 ->
  cron_ok (createCronExpression s) = start_in_range s.
Proof.
  intros H. unfold cron_ok, cron_validate, createCronExpression, start_in_range,
    field_ok. simpl.
  assert (Hd : (0 <=? s_day_of_week s) && (s_day_of_week s <=? 7) = true).
  { apply andb_true_iff. split; lia. }
  rewrite Hd. simpl.
  destruct ((0 <=? mm (s_start_time s)) && (mm (s_start_time s) <=? 59)); simpl;
    [|reflexivity].
  destruct (0 <=? hh (s_start_time s)); simpl; [|reflexivity].
  destruct (hh (s_start_time s) <=? 23); reflexivity.
Qed.

(** X17. For schedules with week days 0..7, [loadActiveSchedules] creates
    one started cron task for every schedule of the store whose start
    hour is in 0..23 and start minute in 0..59, in the order of the store
    and after the tasks that existed before; a schedule with another
    start time is skipped and does not keep the later ones from being
    registered. *)
Theorem loadActiveSchedules_registers (l : list Schedule) (w : World) :
  Forall (fun s => 0 <= s_day_of_week s <= 7) l ->
  cronTasks (node (loadActiveSchedules (Returned l) w))
  = cronTasks (node w) ++
      map schedule_task (filter (fun s => start_in_range s = true) l).
Proof.
  intros Hl. simpl. revert w. induction Hl as [|s l Hs Hl IH]; intros w; simpl.
  - rewrite app_nil_r. reflexivity.
  - rewrite IH. destruct (addSchedule_cronTasks s w) as [-> _].
    rewrite filter_cons, (cron_ok_start_in_range s Hs).
    destruct (start_in_range s); simpl.
    + rewrite <- app_assoc. reflexivity.
    + rewrite app_nil_r. reflexivity.
Qed.

(** X18. The trigger of a schedule matches a wall-clock minute exactly
    when the minute and the hour are those of the start time and the week
    day is the schedule's (7 counting as Sunday), whatever the day of the
    month and the month. In a scheduler without other cron tasks, a
    schedule with an accepted pattern that has just been added has
    [executeSchedule] run once at such a minute, and nothing happens at
    any other minute. *)
Theorem schedule_trigger_matches (s : Schedule) (m : Moment) (w : World) :
  (cron_matches (createCronExpression s) m = true
   <-> m_minute m = mm (s_start_time s) /\ m_hour m = hh (s_start_time s)
       /\ m_dow m = s_day_of_week s mod 7)
  /\ (cronTasks (node w) = [] ->
      cron_ok (createCronExpression s) = true ->
      cron_tick cfg m (addSchedule s w)
      = (if cron_matches (createCronExpression s) m
         then executeSchedule cfg s (addSchedule s w)
         else addSchedule s w)).
Proof.
  split.
  - unfold cron_matches, createCronExpression. simpl.
    rewrite !andb_true_r, !andb_true_iff, !Z.eqb_eq. intuition lia.
  - intros Hempty Hok. unfold cron_tick.
    destruct (addSchedule_cronTasks s w) as [-> _]. rewrite Hempty, Hok. simpl.
    reflexivity.
Qed.

(** *** [stop] twice, and the status *)

Lemma stop_sched (w : World) :
  sched (stop w)
  = {| activeSchedules := []; activeConditions := [];
       scheduledTasks := []; isRunning := false |}.
Proof. reflexivity. Qed.

(** X19. After [stop] the status reports a stopped scheduler with no
    schedule, no condition and no system task. A second [stop] changes
    no cron task and no field of the scheduler; it only writes the
    'stopped' entry to the system log once more. *)
Theorem stop_twice (w : World) :
  getStatus (stop w)
  = {| st_isRunning := false; st_activeSchedules := 0;
       st_activeConditions := 0; st_scheduledTasks := 0 |}
  /\ sched (stop (stop w)) = sched (stop w)
  /\ cronTasks (node (stop (stop w))) = cronTasks (node (stop w))
  /\ system_logs (db (stop (stop w)))
     = system_logs (db (stop w)) ++
         [ {| le_level := LvlInfo; le_message := MsgSchedulerStopped;
              le_source := SrcScheduler |} ].
Proof.
  split; [reflexivity|]. split; [reflexivity|].
  unfold stop at 1 3. rewrite (stop_sched w). simpl. auto.
Qed.

(** *** The map of conditions *)

Lemma map_get_set {V : Type} (k k' : Z) (v : V) (m : list (Z * V)) :
  map_get k' (map_set k v m) = if decide (k = k') then Some v else map_get k' m.
Proof.
  induction m as [|[k0 v0] m IH]; simpl.
  - destruct (decide (k = k')); reflexivity.
  - destruct (decide (k0 = k)) as [->|Hne]; simpl.
    + destruct (decide (k = k')); reflexivity.
    + rewrite IH. destruct (decide (k0 = k')) as [->|Hne'];
        [rewrite decide_False by congruence|]; reflexivity.
Qed.

Lemma map_set_length {V : Type} (k : Z) (v : V) (m : list (Z * V)) :
  length (map_set k v m)
  = (if map_get k m is Some _ then length m else S (length m)).
Proof.
  induction m as [|[k0 v0] m IH]; simpl; [reflexivity|].
  destruct (decide (k0 = k)); simpl; [reflexivity|].
  rewrite IH. destruct (map_get k m); reflexivity.
Qed.

(** X20. [addCondition] keeps one condition per id: afterwards the
    condition stored under the id is the one just added and the
    conditions under other ids are as before; the number of active
    conditions in the status grows by one when the id is new and stays
    the same when the id was present already. *)
Theorem addCondition_one_per_id (c : Condition) (k : Z) (w : World) :
  map_get (c_id c) (activeConditions (sched (addCondition c w))) = Some c
  /\ (k <> c_id c ->
      map_get k (activeConditions (sched (addCondition c w)))
      = map_get k (activeConditions (sched w)))
  /\ st_activeConditions (getStatus (addCondition c w))
     = (if map_get (c_id c) (activeConditions (sched w)) is Some _
        then st_activeConditions (getStatus w)
        else st_activeConditions (getStatus w) + 1).
Proof.
  unfold addCondition, getStatus, map_size. simpl.
  rewrite !map_get_set, map_set_length.
  split; [rewrite decide_True by reflexivity; reflexivity|].
  split.
  - intros Hne. rewrite decide_False by congruence. reflexivity.
  - destruct (map_get (c_id c) (activeConditions (sched w))); lia.
Qed.

(** *** The sample of a poll cycle *)

Lemma controlRele_sensor_readings (releId : Z) (state : bool) (reason : Reason)
    (w : World) :
  sensor_readings (db (snd (controlRele cfg releId state reason w)))
  = sensor_readings (db w).
Proof.
  unfold controlRele. destruct (_ || _); [reflexivity|].
  destruct (rpio_write_throws _ _); reflexivity.
Qed.

Lemma evaluateCondition_sensor_readings (c : Condition) (t h : float) (w : World) :
  sensor_readings (db (evaluateCondition cfg c t h w)) = sensor_readings (db w).
Proof.
  unfold evaluateCondition. destruct (shouldActivate _ _ _) as [[|]|]; try reflexivity.
  unfold executeCondition.
  destruct (c_action c); try reflexivity.
  - pose proof (controlRele_sensor_readings (c_rele_id c) true (condition_reason c) w)
      as H.
    destruct (controlRele cfg _ _ _ w) as [[b|e] w1]; simpl in *; [|exact H].
    destruct (c_duration c >? 0); exact H.
  - pose proof (controlRele_sensor_readings (c_rele_id c) false (condition_reason c) w)
      as H.
    destruct (controlRele cfg _ _ _ w) as [[b|e] w1]; simpl in *; exact H.
Qed.

(** X21. A poll cycle with a sample stores it exactly once: when the
    sensor object exists and answers with two numbers, [checkConditions]
    appends the pair of rounded values to the sensor readings of the
    store, whatever the active conditions do. *)
Theorem checkConditions_stores_sample (t h : float) (sensor : DHT11.Sensor)
    (w : World) :
  dht11 (gpio w) = Some sensor ->
  sensor_readings
    (db (checkConditions cfg toFixed1
           (Some {| rd_temperature := Some t; rd_humidity := Some h |}) w))
  = sensor_readings (db w) ++ [ (toFixed1 t, toFixed1 h) ].
Proof.
  intros Hs. unfold checkConditions, readDHT11. rewrite Hs.
  set (w1 := checkThresholds cfg (toFixed1 t) (toFixed1 h)
               (saveSensorReading (toFixed1 t) (toFixed1 h) w)).
  assert (H1 : sensor_readings (db w1)
               = sensor_readings (db w) ++ [ (toFixed1 t, toFixed1 h) ]).
  { unfold w1, checkThresholds. destruct (_ || _); destruct (_ || _); reflexivity. }
  rewrite <- H1.
  apply (fold_left_invariant
           (fun w0 (kc : Z * Condition) =>
              evaluateCondition cfg (snd kc) (toFixed1 t) (toFixed1 h) w0)
           (fun w' => sensor_readings (db w') = sensor_readings (db w1)));
    [|reflexivity].
  intros a b Ha. rewrite evaluateCondition_sensor_readings. exact Ha.
Qed.

End SchedulerProperties.

(** * The further properties at concrete inputs *)

Lemma pins_work_new : pins_work (world_new env_ok).
Proof. intros pin. reflexivity. Defined.

(** Relay 2 is switched on in a fresh world; relay 1 is read as well. *)
Lemma controlRele_then_getReleState_witness :
  1 <= 2 <= 4
  /\ length (releStates (gpio (world_new env_ok))) = 4%nat
  /\ getReleState 2 (snd (controlRele config_js 2 true ReasonManual (world_new env_ok)))
     = Returned (Some true)
  /\ getReleState 1 (snd (controlRele config_js 2 true ReasonManual (world_new env_ok)))
     = Returned (Some false).
Proof.
  assert (H : 1 <= 2 <= 4) by lia.
  assert (Hlen : length (releStates (gpio (world_new env_ok))) = 4%nat) by reflexivity.
  destruct (controlRele_then_getReleState config_js 2 1 true ReasonManual
              (world_new env_ok) H Hlen) as (_ & Hg & Hj).
  split; [exact H|]. split; [exact Hlen|]. split; [exact Hg|].
  rewrite Hj; [reflexivity | lia].
Defined.

(** Relay 1 on with the active-low relays of src/config.js: LOW on pin 2. *)
Lemma controlRele_pin_and_level_witness :
  1 <= 1 <= 4
  /\ hw (snd (controlRele config_js 1 true ReasonManual (world_new env_ok)))
     = [ {| rw_pin := Some 2; rw_level := LOW; rw_threw := false |} ].
Proof.
  assert (H : 1 <= 1 <= 4) by lia.
  split; [exact H|].
  exact (controlRele_pin_and_level config_js 1 true ReasonManual (world_new env_ok) H).
Defined.


(** All four relays on in a fresh world. *)
Lemma all_rele_loops_witness :
  pins_work (world_new env_ok)
  /\ length (releStates (gpio (world_new env_ok))) = 4%nat
  /\ releStates (gpio (snd (activateAllRele config_js ReasonManual (world_new env_ok))))
     = [true; true; true; true].
Proof.
  assert (Hlen : length (releStates (gpio (world_new env_ok))) = 4%nat) by reflexivity.
  split; [exact pins_work_new|]. split; [exact Hlen|].
  destruct (all_rele_loops config_js true ReasonManual (world_new env_ok))
    as (_ & _ & H).
  exact (H pins_work_new Hlen).
Defined.

(** The deactivation of the Monday schedule, ten hours after it fired. *)
Lemma run_timers_switches_off_witness :
  {| to_due := 36000000; to_rele := 1;
     to_reason := ReasonScheduleEnd (s_start_time schedule_monday)
                    (s_end_time schedule_monday) |}
    ∈ timeouts (node world_monday_on)
  /\ 36000000 <= 36000000
  /\ 1 <= 1 <= 4
  /\ getReleState 1 world_monday_on = Returned (Some true)
  /\ getReleState 1 (run_timers config_backup6 36000000 world_monday_on)
     = Returned (Some false).
Proof.
  set (x := {| to_due := 36000000; to_rele := 1;
               to_reason := ReasonScheduleEnd (s_start_time schedule_monday)
                              (s_end_time schedule_monday) |}).
  assert (Hin : x ∈ timeouts (node world_monday_on)).
  { change (timeouts (node world_monday_on)) with [x]. left. }
  assert (Hdue : to_due x <= 36000000) by (simpl; lia).
  assert (Hv : 1 <= to_rele x <= 4) by (simpl; lia).
  assert (Hp : pins_work world_monday_on) by (intros pin; reflexivity).
  assert (Hlen : length (releStates (gpio world_monday_on)) = 4%nat) by reflexivity.
  split; [exact Hin|]. split; [lia|]. split; [lia|]. split; [reflexivity|].
  destruct (run_timers_switches_off config_backup6 36000000 x world_monday_on)
    as (_ & _ & H).
  exact (H Hin Hdue Hv Hp Hlen).
Defined.


(** Relay 3 on for 3000000 seconds: off after one millisecond. *)
Lemma activateReleTimed_delay_clamped_witness :
  1 <= 3 <= 4
  /\ (3000000 <= 0 \/ 3000000 > 2147483)
  /\ to_due <$> last (timeouts (node (snd (activateReleTimed config_js 3 3000000
                                            "Riego" (world_new env_ok)))))
     = Some 1.
Proof.
  assert (H3 : 1 <= 3 <= 4) by lia.
  assert (Hd : 3000000 <= 0 \/ 3000000 > 2147483) by (right; lia).
  split; [exact H3|]. split; [exact Hd|].
  rewrite (activateReleTimed_delay_clamped config_js 3 3000000 "Riego"
             (world_new env_ok) H3 Hd).
  reflexivity.
Defined.

(** The four relays after the Monday schedule has fired. *)
Lemma getAllReleStates_agrees_witness :
  1 <= 1 <= 4
  /\ length (releStates (gpio world_monday_on)) = 4%nat
  /\ length (getAllReleStates config_backup6 world_monday_on) = 4%nat.
Proof.
  assert (H1 : 1 <= 1 <= 4) by lia.
  assert (Hlen : length (releStates (gpio world_monday_on)) = 4%nat) by reflexivity.
  split; [exact H1|]. split; [exact Hlen|].
  exact (proj1 (getAllReleStates_agrees config_backup6 1 world_monday_on H1 Hlen)).
Defined.

(** A new sensor object reads values out of range. *)
Lemma DHT11_read_valid_witness :
  sensor_ok sensor_new
  /\ fst (DHT11.read 5000 (Returned (200%float, 50%float)) sensor_new)
     = (25.0%float, 60.0%float)
  /\ DHT11.isValidReading 25.0%float 60.0%float = true.
Proof.
  assert (Hok : sensor_ok sensor_new) by exact I.
  split; [exact Hok|]. split; [reflexivity|].
  exact (proj1 (DHT11_read_valid 5000 (Returned (200%float, 50%float)) sensor_new Hok)).
Defined.

(** A sample at clock 5000 and a second read one second later. *)
Lemma DHT11_read_cached_witness :
  DHT11.isValidReading 22.5%float 65%float = true
  /\ (DHT11.lastReading sensor_new = None
      \/ 5000 - DHT11.lastReadTime sensor_new >= DHT11.minReadInterval)
  /\ 6000 - 5000 < DHT11.minReadInterval
  /\ fst (DHT11.read 6000 (Returned (30%float, 70%float))
            (snd (DHT11.read 5000 (Returned (22.5%float, 65%float)) sensor_new)))
     = (22.5%float, 65%float).
Proof.
  assert (Hv : DHT11.isValidReading 22.5%float 65%float = true) by reflexivity.
  assert (Hf : DHT11.lastReading sensor_new = None
               \/ 5000 - DHT11.lastReadTime sensor_new >= DHT11.minReadInterval)
    by (left; reflexivity).
  assert (Hlt : 6000 - 5000 < DHT11.minReadInterval) by (unfold DHT11.minReadInterval; lia).
  split; [exact Hv|]. split; [exact Hf|]. split; [exact Hlt|].
  destruct (DHT11_read_cached 5000 6000 22.5%float 65%float
              (Returned (30%float, 70%float)) sensor_new Hv Hf Hlt) as [_ H].
  rewrite H. reflexivity.
Defined.


(** The deactivate condition while a deactivation of relay 2 is pending. *)
Lemma executeCondition_deactivate_witness :
  c_action condition_off = ActDeactivate
  /\ 1 <= c_rele_id condition_off <= 4
  /\ pins_work world_hot_once
  /\ length (timeouts (node (executeCondition config_backup6 condition_off 19%float
                               world_hot_once))) = 1%nat
  /\ getReleState 2 (executeCondition config_backup6 condition_off 19%float
                       world_hot_once) = Returned (Some false).
Proof.
  assert (Ha : c_action condition_off = ActDeactivate) by reflexivity.
  assert (Hr : 1 <= c_rele_id condition_off <= 4) by (simpl; lia).
  assert (Hp : pins_work world_hot_once) by (intros pin; reflexivity).
  assert (Hlen : length (releStates (gpio world_hot_once)) = 4%nat) by reflexivity.
  destruct (executeCondition_deactivate config_backup6 condition_off 19%float
              world_hot_once Ha) as [Hto Hoff].
  split; [exact Ha|]. split; [exact Hr|]. split; [exact Hp|]. split.
  - rewrite Hto. reflexivity.
  - exact (Hoff Hr Hp Hlen).
Defined.

(** The condition with a hold of 3000000 seconds. *)
Lemma executeCondition_long_hold_witness :
  1 <= c_rele_id condition_long_hold <= 4
  /\ c_action condition_long_hold = ActActivate
  /\ c_duration condition_long_hold > 2147483
  /\ to_due <$> last (timeouts (node (executeCondition config_backup6
                                        condition_long_hold 31%float world_running)))
     = Some 1.
Proof.
  assert (Hr : 1 <= c_rele_id condition_long_hold <= 4) by (simpl; lia).
  assert (Ha : c_action condition_long_hold = ActActivate) by reflexivity.
  assert (Hd : c_duration condition_long_hold > 2147483) by (simpl; lia).
  split; [exact Hr|]. split; [exact Ha|]. split; [exact Hd|].
  rewrite (executeCondition_long_hold config_backup6 condition_long_hold 31%float
             world_running Hr Ha Hd).
  reflexivity.
Defined.

(** The Monday schedule. *)
Lemma executeSchedule_off_within_a_day_witness :
  valid_time (s_start_time schedule_monday)
  /\ valid_time (s_end_time schedule_monday)
  /\ 1 <= s_rele_id schedule_monday <= 4
  /\ exists x,
      last (timeouts (node (executeSchedule config_backup6 schedule_monday
                              world_running))) = Some x
      /\ to_rele x = s_rele_id schedule_monday
      /\ now (node world_running) < to_due x
         < now (node world_running) + 24 * 3600 * 1000.
Proof.
  assert (H1 : valid_time (s_start_time schedule_monday))
    by (unfold valid_time; simpl; lia).
  assert (H2 : valid_time (s_end_time schedule_monday))
    by (unfold valid_time; simpl; lia).
  assert (Hr : 1 <= s_rele_id schedule_monday <= 4) by (simpl; lia).
  split; [exact H1|]. split; [exact H2|]. split; [exact Hr|].
  exact (executeSchedule_off_within_a_day config_backup6 schedule_monday
           world_running H1 H2 Hr).
Defined.


(** The Monday schedule added to a fresh scheduler, at Monday 08:00. *)
Lemma schedule_trigger_matches_witness :
  cronTasks (node (world_new env_ok)) = []
  /\ cron_ok (createCronExpression schedule_monday) = true
  /\ cron_matches (createCronExpression schedule_monday) monday_0800 = true
  /\ cron_tick config_js monday_0800 (addSchedule schedule_monday (world_new env_ok))
     = executeSchedule config_js schedule_monday
         (addSchedule schedule_monday (world_new env_ok)).
Proof.
  assert (He : cronTasks (node (world_new env_ok)) = []) by reflexivity.
  assert (Hok : cron_ok (createCronExpression schedule_monday) = true) by reflexivity.
  destruct (schedule_trigger_matches config_js schedule_monday monday_0800
              (world_new env_ok)) as [Hiff Htick].
  assert (Hm : cron_matches (createCronExpression schedule_monday) monday_0800 = true).
  { apply Hiff. repeat split; reflexivity. }
  split; [exact He|]. split; [exact Hok|]. split; [exact Hm|].
  rewrite (Htick He Hok), Hm. reflexivity.
Defined.

(** The temperature condition added again, and the lookup of another id. *)
Lemma addCondition_one_per_id_witness :
  7 <> c_id condition_hot
  /\ map_get 7 (activeConditions (sched (addCondition condition_hot world_running)))
     = None
  /\ st_activeConditions (getStatus (addCondition condition_hot world_running)) = 1.
Proof.
  assert (Hne : 7 <> c_id condition_hot) by (simpl; lia).
  destruct (addCondition_one_per_id condition_hot 7 world_running) as (_ & Hk & Hn).
  split; [exact Hne|]. split.
  - rewrite (Hk Hne). reflexivity.
  - rewrite Hn. reflexivity.
Defined.

(** A sample of 31.2 degrees in the running scheduler. *)
Lemma checkConditions_stores_sample_witness :
  dht11 (gpio world_running) = Some sensor_new
  /\ sensor_readings
       (db (checkConditions config_backup6 toFixed1_id
              (Some {| rd_temperature := Some 31.2%float;
                       rd_humidity := Some 50%float |}) world_running))
     = [ (31.2%float, 50%float) ].
Proof.
  assert (Hs : dht11 (gpio world_running) = Some sensor_new) by reflexivity.
  split; [exact Hs|].
  exact (checkConditions_stores_sample config_backup6 toFixed1_id 31.2%float 50%float
           sensor_new world_running Hs).
Defined.

(** A store with a schedule that starts at 24:00 between two that start
    at 08:00: the first and the last get their task. *)
Lemma loadActiveSchedules_registers_witness :
  Forall (fun s => 0 <= s_day_of_week s <= 7)
    [schedule_monday; schedule_hour24; schedule_same]
  /\ cronTasks (node (loadActiveSchedules
                        (Returned [schedule_monday; schedule_hour24; schedule_same])
                        (world_new env_ok)))
     = [schedule_task schedule_monday; schedule_task schedule_same].
Proof.
  assert (H : Forall (fun s => 0 <= s_day_of_week s <= 7)
                [schedule_monday; schedule_hour24; schedule_same]).
  { repeat constructor; simpl; lia. }
  split; [exact H|].
  rewrite (loadActiveSchedules_registers
             [schedule_monday; schedule_hour24; schedule_same] (world_new env_ok) H).
  reflexivity.
Defined.
